(** * ToolFabric: the dynamic tool lifecycle registry of [tool_fabric.py]

    A shallow embedding of the classes [MCPClient], [BaseTool],
    [InternalFunctionTool], [MCPBasedTool], the factory [create_tool] and the
    registry [ToolFabric], followed by the properties of the registry that
    the specification states about them.

    Python objects that are shared by reference (tool instances, reachable
    from the registry, from the closures returned by [to_tool] and from the
    tables of the agents) live in a heap indexed by object identity.  Objects
    owned by exactly one other object (the clients of a tool) are stored by
    value inside their owner.  Whatever the code prints, and every call it
    makes to the operating system, is recorded as an event. *)

From stdpp Require Import gmap strings list fin_maps.
From Stdlib Require Import ZArith.

Local Open Scope string_scope.
Local Open Scope Z_scope.
Local Open Scope list_scope.

(** ** Python values *)

(** The values a YAML document or a call argument is made of. *)
#[local] Set Warnings "-register-all".
Inductive pyval : Type :=
| VNone
| VBool (b : bool)
| VInt (z : Z)
| VStr (s : string)
| VList (l : list pyval)
| VDict (d : list (string * pyval)).
#[local] Set Warnings "register-all".

(** A dict with string keys, in insertion order. *)
Abbreviation dict := (list (string * pyval)).

Inductive exn : Type :=
| KeyError (key : pyval)
| TypeError
| AttributeError (attr : string)
| ValueError (tool : pyval)
| ReferenceError
| OtherError (code : nat).

(** What a call does: it returns, it raises, or it never comes back (a
    [join] on a thread that does not end). *)
Inductive outcome (A : Type) : Type :=
| Ok (a : A)
| Raise (e : exn)
| Hang.
Arguments Ok {A} a.
Arguments Raise {A} e.
Arguments Hang {A}.

(** [bool(v)] *)
Definition truthy (v : pyval) : bool :=
  match v with
  | VNone => false
  | VBool b => b
  | VInt z => negb (z =? 0)
  | VStr s => negb (String.eqb s "")
  | VList l => negb (Nat.eqb (length l) 0)
  | VDict d => negb (Nat.eqb (length d) 0)
  end.

(** [k in d] and [d.get(k)] on a dict. *)
Fixpoint dict_lookup (k : string) (d : dict) : option pyval :=
  match d with
  | [] => None
  | (k', v) :: d' => if String.eqb k k' then Some v else dict_lookup k d'
  end.

Definition dict_has (k : string) (d : dict) : bool :=
  match dict_lookup k d with Some _ => true | None => false end.

(** [d[k]] *)
Definition dict_index (d : dict) (k : string) : exn + pyval :=
  match dict_lookup k d with
  | Some v => inr v
  | None => inl (KeyError (VStr k))
  end.

(** [d.get(k, dflt)] *)
Definition dict_get (d : dict) (k : string) (dflt : pyval) : pyval :=
  default dflt (dict_lookup k d).

(** [v.get(k, dflt)] on an arbitrary value: only a dict has the method. *)
Definition py_get (v : pyval) (k : string) (dflt : pyval) : exn + pyval :=
  match v with
  | VDict d => inr (dict_get d k dflt)
  | _ => inl (AttributeError "get")
  end.

(** [v[k]] with a string key on an arbitrary value. *)
Definition py_index (v : pyval) (k : string) : exn + pyval :=
  match v with
  | VDict d => dict_index d k
  | _ => inl TypeError
  end.

Fixpoint chars (s : string) : list pyval :=
  match s with
  | EmptyString => []
  | String a s' => VStr (String a EmptyString) :: chars s'
  end.

(** [for x in v]: the elements of a list, the keys of a dict, the characters
    of a string; nothing else is iterable. *)
Definition py_iter (v : pyval) : exn + list pyval :=
  match v with
  | VList l => inr l
  | VDict d => inr (map (fun kv => VStr (fst kv)) d)
  | VStr s => inr (chars s)
  | _ => inl TypeError
  end.

Fixpoint join_strs (sep : string) (l : list pyval) : exn + string :=
  match l with
  | [] => inr ""%string
  | v :: rest =>
      match v with
      | VStr s =>
          match rest with
          | [] => inr s
          | _ :: _ =>
              match join_strs sep rest with
              | inr r => inr (s +:+ sep +:+ r)
              | inl e => inl e
              end
          end
      | _ => inl TypeError
      end
  end.

(** [sep.join(v)] *)
Definition str_join (sep : string) (v : pyval) : exn + string :=
  match py_iter v with
  | inl e => inl e
  | inr l => join_strs sep l
  end.

(** ** Dict keys

    The hashable values: the keys the registry can hold.  [True] and [1]
    are the same key, as are [False] and [0]. *)
Inductive pykey : Type :=
| KNone
| KInt (z : Z)
| KStr (s : string).

#[global] Instance pykey_eq_dec : EqDecision pykey.
Proof. solve_decision. Defined.

#[global] Instance pykey_countable : Countable pykey.
Proof.
  refine (inj_countable'
            (fun k => match k with
                      | KNone => None
                      | KInt z => Some (inl z)
                      | KStr s => Some (inr s)
                      end)
            (fun o => match o with
                      | None => KNone
                      | Some (inl z) => KInt z
                      | Some (inr s) => KStr s
                      end) _).
  by intros [].
Defined.

(** [hash(v)]: a list or a dict is unhashable. *)
Definition to_key (v : pyval) : exn + pykey :=
  match v with
  | VNone => inr KNone
  | VBool b => inr (KInt (if b then 1 else 0))
  | VInt z => inr (KInt z)
  | VStr s => inr (KStr s)
  | VList _ | VDict _ => inl TypeError
  end.

(** ** Events *)

Inductive tool_class := MCPBasedToolC | InternalFunctionToolC.

#[global] Instance tool_class_eq_dec : EqDecision tool_class.
Proof. solve_decision. Defined.

(** An owned operating-system process, as returned by [subprocess.Popen]. *)
Definition proc := nat.

Inductive event : Type :=
| LogConnecting (name protocol host port : pyval)
| LogNotConnected (name : pyval)
| LogSend (name protocol payload : pyval)
| LogDisconnected (name : pyval)
| LogHealthFailed (name : pyval)
| LogStartingProcess (tool : pyval) (cmdline : string)
| LogReady (cls : tool_class) (tool : pyval)
| LogStopped (cls : tool_class) (tool : pyval)
| LogAdded (tool : pyval)
| LogRemoved (tool : pyval)
| SysPopen (cmd : pyval) (p : proc)
| SysTerminate (p : proc)
| SysThreadStart (name : pyval).

(** ** The monad of methods

    A method of an object with state [S] takes the state, and gives back its
    outcome, the state it leaves behind (also when it raises) and the events
    it produced, in order. *)
Definition M (S A : Type) : Type := S -> outcome A * S * list event.

Definition ret {S A} (a : A) : M S A := fun s => (Ok a, s, []).

Definition bind {S A B} (m : M S A) (f : A -> M S B) : M S B :=
  fun s =>
    match m s with
    | (Ok a, s1, ev1) =>
        match f a s1 with
        | (r, s2, ev2) => (r, s2, ev1 ++ ev2)
        end
    | (Raise e, s1, ev1) => (Raise e, s1, ev1)
    | (Hang, s1, ev1) => (Hang, s1, ev1)
    end.

Notation "x <- m ;; k" := (bind m (fun x => k))
  (at level 100, m at next level, right associativity).
Notation "m ;; k" := (bind m (fun _ => k))
  (at level 100, right associativity).

Definition raise {S A} (e : exn) : M S A := fun s => (Raise e, s, []).
Definition hang {S A} : M S A := fun s => (Hang, s, []).
Definition emit {S} (e : event) : M S unit := fun s => (Ok tt, s, [e]).
Definition get {S} : M S S := fun s => (Ok s, s, []).
Definition put {S} (s : S) : M S unit := fun _ => (Ok tt, s, []).
Definition modify {S} (f : S -> S) : M S unit := fun s => (Ok tt, f s, []).

(** A value or an exception computed without touching the state. *)
Definition lift {S A} (r : exn + A) : M S A :=
  match r with
  | inl e => raise e
  | inr a => ret a
  end.

(** [for x in l: body(x)] *)
Fixpoint for_each {S A} (l : list A) (body : A -> M S unit) : M S unit :=
  match l with
  | [] => ret tt
  | x :: rest => body x ;; for_each rest body
  end.

(** [for o in objs: o.method()] where the objects are owned by value: the
    method runs on each element in turn, and stops at the first one that
    does not return. *)
Fixpoint on_each {S} (m : M S unit) (objs : list S)
  : outcome unit * list S * list event :=
  match objs with
  | [] => (Ok tt, [], [])
  | o :: rest =>
      match m o with
      | (Ok _, o', ev) =>
          match on_each m rest with
          | (r, rest', ev') => (r, o' :: rest', ev ++ ev')
          end
      | (Raise e, o', ev) => (Raise e, o' :: rest, ev)
      | (Hang, o', ev) => (Hang, o' :: rest, ev)
      end
  end.

(** ** What lies outside the repository

    The interpreter and the operating system: launching and terminating a
    process, importing a module and reading one of its attributes, putting
    a thread to sleep, and [str()].  A callable is an in-process function
    of its positional and keyword arguments that returns or raises. *)
Definition callable := list pyval -> dict -> exn + pyval.

Class Runtime := {
  (** [subprocess.Popen(cmd)] *)
  popen : pyval -> exn + proc;
  (** [process.terminate()] *)
  terminate : proc -> exn + unit;
  (** [importlib.import_module(name)] *)
  import_module : pyval -> exn + nat;
  (** [getattr(module, name)] *)
  getattr : nat -> pyval -> exn + callable;
  (** [time.sleep(secs)]: it returns when the time is over, or raises: on
      what is not a number, on a negative number, and on a number the
      platform cannot wait for *)
  sleep : pyval -> exn + unit;
  (** [str(v)], as an f-string formats a value *)
  py_str : pyval -> string;
}.

(** ** class MCPClient *)

Module MCPClient.

(** Where the thread running [health_loop] stands. *)
Inductive pc := AtWhile | AtIf | AtSleep | Finished.

(** A [threading.Thread] whose target is [health_loop], with the
    [interval] its closure captured. *)
Record thread := Thread { th_pc : pc; th_interval : pyval }.

Record t := Build {
  name : pyval;
  host : pyval;
  port : pyval;
  token : pyval;
  protocol : pyval;
  connected : bool;
  _health_thread : option thread;
  _stop_health : bool;
}.

Definition set_connected (b : bool) (c : t) : t :=
  Build (name c) (host c) (port c) (token c) (protocol c) b
        (_health_thread c) (_stop_health c).
Definition set_health_thread (th : option thread) (c : t) : t :=
  Build (name c) (host c) (port c) (token c) (protocol c) (connected c)
        th (_stop_health c).
Definition set_stop_health (b : bool) (c : t) : t :=
  Build (name c) (host c) (port c) (token c) (protocol c) (connected c)
        (_health_thread c) b.

(** [MCPClient.__init__] *)
Definition init (name host port protocol token : pyval) : t :=
  Build name host port token protocol false None false.

(** [connect]: the [try] body prints and sets the flag; nothing in it
    raises, so the [except] branch is never taken. *)
Definition connect : M t unit :=
  c <- get ;;
  emit (LogConnecting (name c) (protocol c) (host c) (port c)) ;;
  modify (set_connected true).

Definition send (payload : pyval) : M t unit :=
  c <- get ;;
  if negb (connected c) then
    emit (LogNotConnected (name c)) ;;
    ret tt
  else
    emit (LogSend (name c) (protocol c) payload).

Definition start_health_check (interval : pyval) : M t unit :=
  c <- get ;;
  modify (set_health_thread (Some (Thread AtWhile interval))) ;;
  emit (SysThreadStart (name c)).

Section WithRuntime.
Context `{Runtime}.

(** One step of the thread running [health_loop], on the client [c] it
    closes over.  A [time.sleep] that raises ends the thread: nothing in
    [health_loop] catches the exception. *)
Definition health_step : M t unit :=
  c <- get ;;
  match _health_thread c with
  | None => ret tt
  | Some th =>
      let goto p := modify (set_health_thread (Some (Thread p (th_interval th)))) in
      match th_pc th with
      | AtWhile => if negb (_stop_health c) then goto AtIf else goto Finished
      | AtIf =>
          (if negb (connected c) then
             emit (LogHealthFailed (name c)) ;;
             connect
           else ret tt) ;;
          goto AtSleep
      | AtSleep =>
          match sleep (th_interval th) with
          | inr _ => goto AtWhile
          | inl _ => goto Finished
          end
      | Finished => ret tt
      end
  end.

(** [n] steps of that thread, one after the other. *)
Fixpoint health_steps (n : nat) : M t unit :=
  match n with
  | O => ret tt
  | S n' => health_step ;; health_steps n'
  end.

(** Has the thread of [c], if any, ended? *)
Definition thread_done (c : t) : bool :=
  match _health_thread c with
  | Some (Thread Finished _) | None => true
  | Some _ => false
  end.

(** The thread runs for at most [fuel] steps, or until it ends. *)
Fixpoint run_thread (fuel : nat) : M t unit :=
  match fuel with
  | O => ret tt
  | S fuel' =>
      c <- get ;;
      if thread_done c then ret tt else (health_step ;; run_thread fuel')
  end.

(** [self._health_thread.join()].  The caller is blocked while the thread
    runs on.  One turn of the loop is three steps, and the flag the loop
    tests is written by nobody but the caller: a thread that has not ended
    after three steps never ends. *)
Definition join : M t unit :=
  run_thread 3 ;;
  c <- get ;;
  if thread_done c then ret tt else hang.

(** [disconnect].  The thread takes its steps while the caller waits in
    [join]: the two assignments are one step of the caller here, where in
    the source the thread may also run between them. *)
Definition disconnect : M t unit :=
  modify (set_connected false) ;;
  modify (set_stop_health true) ;;
  c <- get ;;
  match _health_thread c with
  | Some _ => join
  | None => ret tt
  end ;;
  emit (LogDisconnected (name c)).

End WithRuntime.
End MCPClient.

(** ** class BaseTool, and the attributes its two subclasses add *)

Module BaseTool.

(** A tool object.  [process] is [None] also while the attribute is not
    set: [getattr(self, "process", None)] is its only reader.  [function]
    is [None] while the attribute is not set.  The list [_health_threads]
    is created empty and nothing appends to it, so [stop] finds nothing to
    join there; it is left out. *)
Record t := Build {
  cls : tool_class;
  name : pyval;
  config : dict;
  mcp_clients : list MCPClient.t;
  process : option proc;
  function : option callable;
}.

Definition set_mcp_clients (cs : list MCPClient.t) (self : t) : t :=
  Build (cls self) (name self) (config self) cs (process self) (function self).
Definition set_process (p : option proc) (self : t) : t :=
  Build (cls self) (name self) (config self) (mcp_clients self) p (function self).
Definition set_function (f : option callable) (self : t) : t :=
  Build (cls self) (name self) (config self) (mcp_clients self) (process self) f.

(** [BaseTool.__init__] *)
Definition init (c : tool_class) (name : pyval) (config : dict) : t :=
  Build c name config [] None None.

(** A method of a freshly built client, run before the client is stored. *)
Definition on_new {A} (m : M MCPClient.t A) (c : MCPClient.t)
  : M t MCPClient.t :=
  fun self =>
    match m c with
    | (Ok _, c', ev) => (Ok c', self, ev)
    | (Raise e, _, ev) => (Raise e, self, ev)
    | (Hang, _, ev) => (Hang, self, ev)
    end.

(** [for client in self.mcp_clients: client.m()] *)
Definition on_clients (m : M MCPClient.t unit) : M t unit :=
  fun self =>
    match on_each m (mcp_clients self) with
    | (r, cs, ev) => (r, set_mcp_clients cs self, ev)
    end.

Definition _attach_mcp_clients : M t unit :=
  self <- get ;;
  cfgs <- lift (py_iter (dict_get (config self) "mcp_clients" (VList []))) ;;
  for_each cfgs (fun cfg =>
    enabled <- lift (py_get cfg "enabled" (VBool true)) ;;
    if negb (truthy enabled) then ret tt
    else
      n <- lift (py_index cfg "name") ;;
      h <- lift (py_index cfg "host") ;;
      p <- lift (py_index cfg "port") ;;
      proto <- lift (py_get cfg "protocol" (VStr "stdio")) ;;
      tok <- lift (py_get cfg "auth_token" VNone) ;;
      client <- on_new MCPClient.connect (MCPClient.init n h p proto tok) ;;
      modify (fun self => set_mcp_clients (mcp_clients self ++ [client]) self)).

Definition _start_health_checks : M t unit :=
  self <- get ;;
  let health_cfg := dict_get (config self) "health_check" (VDict []) in
  interval <- lift (py_get health_cfg "interval" (VInt 10)) ;;
  on_clients (MCPClient.start_health_check interval).

Definition stop `{Runtime} : M t unit :=
  on_clients MCPClient.disconnect.

End BaseTool.

(** ** class InternalFunctionTool *)

Module InternalFunctionTool.
Section WithRuntime.
Context `{Runtime}.

Definition start : M BaseTool.t unit :=
  self <- get ;;
  modname <- lift (dict_index (BaseTool.config self) "module") ;;
  module <- lift (import_module modname) ;;
  fname <- lift (dict_index (BaseTool.config self) "function") ;;
  f <- lift (getattr module fname) ;;
  modify (BaseTool.set_function (Some f)) ;;
  BaseTool._attach_mcp_clients ;;
  BaseTool._start_health_checks ;;
  emit (LogReady InternalFunctionToolC (BaseTool.name self)).

Definition stop : M BaseTool.t unit :=
  BaseTool.stop ;;
  self <- get ;;
  emit (LogStopped InternalFunctionToolC (BaseTool.name self)).

(** The closure [tool] that [to_tool] returns, applied to [*args] and
    [**kwargs]. *)
Definition tool (args : list pyval) (kwargs : dict) : M BaseTool.t pyval :=
  self <- get ;;
  match BaseTool.function self with
  | None => raise (AttributeError "function")
  | Some f =>
      result <- lift (f args kwargs) ;;
      BaseTool.on_clients (MCPClient.send (VDict [("result", result)])) ;;
      ret result
  end.

End WithRuntime.
End InternalFunctionTool.

(** ** class MCPBasedTool *)

Module MCPBasedTool.
Section WithRuntime.
Context `{Runtime}.

Definition start : M BaseTool.t unit :=
  self <- get ;;
  let cmd := dict_get (BaseTool.config self) "command" (VList []) in
  modify (BaseTool.set_process None) ;;
  (if truthy cmd then
     cmdline <- lift (str_join " " cmd) ;;
     emit (LogStartingProcess (BaseTool.name self) cmdline) ;;
     p <- lift (popen cmd) ;;
     emit (SysPopen cmd p) ;;
     modify (BaseTool.set_process (Some p))
   else ret tt) ;;
  BaseTool._attach_mcp_clients ;;
  BaseTool._start_health_checks ;;
  emit (LogReady MCPBasedToolC (BaseTool.name self)).

Definition stop : M BaseTool.t unit :=
  BaseTool.stop ;;
  self <- get ;;
  match BaseTool.process self with
  | Some p =>
      emit (SysTerminate p) ;;
      lift (terminate p)
  | None => ret tt
  end ;;
  emit (LogStopped MCPBasedToolC (BaseTool.name self)).

(** The acknowledgement [f"[{self.name}] {action} executed"]. *)
Definition ack (name action : pyval) : pyval :=
  VStr ("[" +:+ py_str name +:+ "] " +:+ py_str action +:+ " executed").

(** The closure [tool(action, payload=None)] that [to_tool] returns. *)
Definition tool (action payload : pyval) : M BaseTool.t pyval :=
  let payload := if truthy payload then payload else VDict [] in
  BaseTool.on_clients
    (MCPClient.send (VDict [("action", action); ("payload", payload)])) ;;
  self <- get ;;
  ret (ack (BaseTool.name self) action).

(** How a call binds the parameters [(action, payload=None)]. *)
Definition bind_params (args : list pyval) (kwargs : dict)
  : exn + (pyval * pyval) :=
  let known kv := orb (String.eqb (fst kv) "action") (String.eqb (fst kv) "payload") in
  if negb (forallb known kwargs) then inl TypeError
  else
    match args, dict_lookup "action" kwargs, dict_lookup "payload" kwargs with
    | [], Some a, Some p => inr (a, p)
    | [], Some a, None => inr (a, VNone)
    | [a], None, Some p => inr (a, p)
    | [a], None, None => inr (a, VNone)
    | [a; p], None, None => inr (a, p)
    | _, _, _ => inl TypeError
    end.

End WithRuntime.
End MCPBasedTool.

(** ** The heap, the registry and the consumers *)

(** What [to_tool()] returns: a closure over [self]. *)
Inductive Invocable := Closure (c : tool_class) (self : nat).

#[global] Instance Invocable_eq_dec : EqDecision Invocable.
Proof. solve_decision. Defined.

(** The tool objects by identity, the two dicts of the [ToolFabric], and
    the tool table of every agent. *)
Record World := BuildWorld {
  heap : gmap nat BaseTool.t;
  next_id : nat;
  tool_instances : gmap pykey nat;
  tools : gmap pykey Invocable;
  agents : gmap nat (gmap pykey Invocable);
}.

Definition set_heap (h : gmap nat BaseTool.t) (w : World) : World :=
  BuildWorld h (next_id w) (tool_instances w) (tools w) (agents w).
Definition set_next_id (n : nat) (w : World) : World :=
  BuildWorld (heap w) n (tool_instances w) (tools w) (agents w).
Definition set_tool_instances (m : gmap pykey nat) (w : World) : World :=
  BuildWorld (heap w) (next_id w) m (tools w) (agents w).
Definition set_tools (m : gmap pykey Invocable) (w : World) : World :=
  BuildWorld (heap w) (next_id w) (tool_instances w) m (agents w).
Definition set_agents (a : gmap nat (gmap pykey Invocable)) (w : World) : World :=
  BuildWorld (heap w) (next_id w) (tool_instances w) (tools w) a.

(** A newly constructed object gets an identity no other object has. *)
Definition new (t : BaseTool.t) : M World nat :=
  w <- get ;;
  let id := next_id w in
  put (set_next_id (S id) (set_heap (<[id := t]> (heap w)) w)) ;;
  ret id.

(** [obj.m()]: the method runs on the object that [self] refers to.  A
    reference always has its object; the last case is there for totality. *)
Definition on_object {A} (self : nat) (m : M BaseTool.t A) : M World A :=
  fun w =>
    match heap w !! self with
    | Some t =>
        match m t with
        | (r, t', ev) => (r, set_heap (<[self := t']> (heap w)) w, ev)
        end
    | None => (Raise ReferenceError, w, [])
    end.

Section WithRuntime.
Context `{Runtime}.

(** Dynamic dispatch on the class of the object. *)
Definition start : M BaseTool.t unit :=
  self <- get ;;
  match BaseTool.cls self with
  | MCPBasedToolC => MCPBasedTool.start
  | InternalFunctionToolC => InternalFunctionTool.start
  end.

Definition stop : M BaseTool.t unit :=
  self <- get ;;
  match BaseTool.cls self with
  | MCPBasedToolC => MCPBasedTool.stop
  | InternalFunctionToolC => InternalFunctionTool.stop
  end.

Definition to_tool (self : nat) : M World Invocable :=
  on_object self (t <- get ;; ret (Closure (BaseTool.cls t) self)).

(** Calling what [to_tool] returned. *)
Definition call (f : Invocable) (args : list pyval) (kwargs : dict)
  : M World pyval :=
  match f with
  | Closure InternalFunctionToolC self =>
      on_object self (InternalFunctionTool.tool args kwargs)
  | Closure MCPBasedToolC self =>
      ap <- lift (MCPBasedTool.bind_params args kwargs) ;;
      on_object self (MCPBasedTool.tool (fst ap) (snd ap))
  end.

(** A step of the thread that checks the health of the [i]-th client of
    the tool [self]: what the scheduler may do between any two calls. *)
Definition health_tick (self : nat) (i : nat) : M World unit :=
  on_object self (fun t =>
    match BaseTool.mcp_clients t !! i with
    | Some c =>
        match MCPClient.health_step c with
        | (r, c', ev) =>
            (r, BaseTool.set_mcp_clients (<[i := c']> (BaseTool.mcp_clients t)) t, ev)
        end
    | None => (Ok tt, t, [])
    end).

(** ** tool_factory.py *)

Definition create_tool (tool_cfg : dict) : M World nat :=
  if dict_has "command" tool_cfg then
    n <- lift (dict_index tool_cfg "name") ;;
    new (BaseTool.init MCPBasedToolC n tool_cfg)
  else if dict_has "module" tool_cfg && dict_has "function" tool_cfg then
    n <- lift (dict_index tool_cfg "name") ;;
    new (BaseTool.init InternalFunctionToolC n tool_cfg)
  else
    n <- lift (dict_index tool_cfg "name") ;;
    raise (ValueError n).

(** ** class ToolFabric *)

(** [ToolFabric.__init__]: both dicts empty.  (A [config_path] only makes
    [load_from_yaml] read the file into [self.config].) *)
Definition init : World := BuildWorld ∅ 0 ∅ ∅ ∅.

Definition add_tool (cfg : dict) : M World unit :=
  instance <- create_tool cfg ;;
  on_object instance start ;;
  n <- lift (dict_index cfg "name") ;;
  k <- lift (to_key n) ;;
  modify (fun w => set_tool_instances (<[k := instance]> (tool_instances w)) w) ;;
  f <- to_tool instance ;;
  n <- lift (dict_index cfg "name") ;;
  k <- lift (to_key n) ;;
  modify (fun w => set_tools (<[k := f]> (tools w)) w) ;;
  n <- lift (dict_index cfg "name") ;;
  emit (LogAdded n).

Definition remove_tool (name : pyval) : M World unit :=
  k <- lift (to_key name) ;;
  w <- get ;;
  match tool_instances w !! k with
  | Some instance =>
      on_object instance stop ;;
      modify (fun w => set_tool_instances (delete k (tool_instances w)) w) ;;
      w <- get ;;
      match tools w !! k with
      | Some _ => modify (fun w => set_tools (delete k (tools w)) w)
      | None => raise (KeyError name)
      end ;;
      emit (LogRemoved name)
  | None => ret tt
  end.

(** What [add_tool] can work with.  On an entry that is not a dict it
    raises TypeError: [create_tool] tests ["command" in tool_cfg] and then
    indexes [tool_cfg["name"]], and on every value that is not a dict one
    of the two raises TypeError. *)
Definition as_dict (v : pyval) : exn + dict :=
  match v with
  | VDict d => inr d
  | _ => inl TypeError
  end.

(** [setup]: [add_tool] for every entry under "tools" of [self.config], the
    document [load_from_yaml] read.  (It returns [self.tools], the dict
    itself: the caller reads [tools] of the world.) *)
Definition setup (config : pyval) : M World unit :=
  entries <- lift (py_get config "tools" (VList [])) ;;
  cfgs <- lift (py_iter entries) ;;
  for_each cfgs (fun cfg => d <- lift (as_dict cfg) ;; add_tool d).

(** Modelled from the spec: [agent.attach_tool(name, func)] of the
    consumer (an agent of the external ADK library), which section 4.4
    describes as the consumer's own tool table, a name to invocable
    mapping: the entry under [name] becomes [func]. *)
Definition attach_tool (agent : nat) (k : pykey) (func : Invocable)
  : M World unit :=
  modify (fun w =>
    set_agents (<[agent := <[k := func]> (default ∅ (agents w !! agent))]> (agents w)) w).

(** [for name, func in self.tools.items(): agent.attach_tool(name, func)].
    The entries are visited in the order of the map; each goes under its
    own key, so the order does not show in the result. *)
Definition attach_all_to_agent (agent : nat) : M World unit :=
  w <- get ;;
  for_each (map_to_list (tools w)) (fun kf => attach_tool agent (fst kf) (snd kf)).

End WithRuntime.

(** ** Reading the result of a run *)

Definition outcome_of {S A} (r : outcome A * S * list event) : outcome A := fst (fst r).
Definition state_of {S A} (r : outcome A * S * list event) : S := snd (fst r).
Definition events_of {S A} (r : outcome A * S * list event) : list event := snd r.

Definition returns {A} (o : outcome A) : bool :=
  match o with Ok _ => true | _ => false end.

(** A relation between the state before and the state after that every run
    of [m] respects, whatever its outcome. *)
Definition keeps {S A} (R : S -> S -> Prop) (m : M S A) : Prop :=
  forall s r s' ev, m s = (r, s', ev) -> R s s'.


(** ** Sequences of calls *)

(** The tool table of an agent; an agent nothing was attached to has an
    empty one. *)
Definition agent_table (w : World) (agent : nat) : gmap pykey Invocable :=
  default ∅ (agents w !! agent).

(** What may happen to a registry, one thing after the other: the calls of
    its API, the calls of the invocables it handed out, and the steps of the
    health threads in between. *)
Inductive op : Type :=
| AddTool (cfg : dict)
| RemoveTool (name : pyval)
| AttachAll (agent : nat)
| Invoke (f : Invocable) (args : list pyval) (kwargs : dict)
| HealthTick (self i : nat).

Definition run_op `{Runtime} (o : op) : M World unit :=
  match o with
  | AddTool cfg => add_tool cfg
  | RemoveTool name => remove_tool name
  | AttachAll agent => attach_all_to_agent agent
  | Invoke f args kwargs => call f args kwargs ;; ret tt
  | HealthTick self i => health_tick self i
  end.

(** The caller goes on after a call that returned or raised (it caught the
    exception); after a call that never comes back there is no more. *)
Fixpoint run_ops `{Runtime} (ops : list op) (w : World) : World :=
  match ops with
  | [] => w
  | o :: rest =>
      match run_op o w with
      | (Hang, w', _) => w'
      | (_, w', _) => run_ops rest w'
      end
  end.

Definition is_attach (agent : nat) (o : op) : bool :=
  match o with
  | AttachAll a => Nat.eqb a agent
  | _ => false
  end.

(** The events of [send payload] on each of the clients [cs]. *)
Definition sent (payload : pyval) (cs : list MCPClient.t) : list event :=
  map (fun c => if MCPClient.connected c
                then LogSend (MCPClient.name c) (MCPClient.protocol c) payload
                else LogNotConnected (MCPClient.name c)) cs.

(** ** A concrete runtime and concrete configurations, for the examples *)

Module Lab.

(** A callable that returns its only argument. *)
Definition echo : callable :=
  fun args kwargs =>
    match args, kwargs with
    | [x], [] => inr x
    | _, _ => inl TypeError
    end.

(** [npx] and [sudo] can be launched, nothing else; the process that
    [sudo] started cannot be signalled; one module with one function; a
    thread can sleep for up to a day. *)
Definition runtime : Runtime := {|
  popen cmd :=
    match cmd with
    | VList (VStr "npx" :: _) => inr 7%nat
    | VList (VStr "sudo" :: _) => inr 13%nat
    | _ => inl (OtherError 2)
    end;
  terminate p := if Nat.eqb p 13 then inl (OtherError 1) else inr tt;
  import_module m :=
    match m with
    | VStr "enterprise_tools.user" => inr 0%nat
    | _ => inl (OtherError 3)
    end;
  getattr m a :=
    match m, a with
    | 0%nat, VStr "echo" => inr echo
    | _, _ => inl (AttributeError "?")
    end;
  sleep v :=
    match v with
    | VInt z =>
        if z <? 0 then inl (ValueError v)
        else if z <=? 86400 then inr tt else inl (OtherError 4)
    | _ => inl TypeError
    end;
  py_str v := match v with VStr s => s | _ => "?" end
|}.

Definition logger : pyval :=
  VDict [("name", VStr "user-logger"); ("host", VStr "logs.local");
         ("port", VInt 8000); ("protocol", VStr "sse")].

Definition cfg_echo : dict :=
  [("name", VStr "echo"); ("module", VStr "enterprise_tools.user");
   ("function", VStr "echo"); ("mcp_clients", VList [logger])].

Definition cfg_playwright : dict :=
  [("name", VStr "playwright");
   ("command", VList [VStr "npx"; VStr "@playwright/mcp@latest"]);
   ("mcp_clients", VList [logger])].

(** The same name again, with another command. *)
Definition cfg_playwright2 : dict :=
  [("name", VStr "playwright");
   ("command", VList [VStr "npx"; VStr "other"])].

(** The same name again, with a command that cannot be launched. *)
Definition cfg_unlaunchable : dict :=
  [("name", VStr "playwright"); ("command", VList [VStr "no-such-binary"])].

(** A command whose process cannot be terminated. *)
Definition cfg_sudo : dict :=
  [("name", VStr "root_server"); ("command", VList [VStr "sudo"; VStr "server"]);
   ("mcp_clients", VList [logger])].


Definition cfg_neither : dict :=
  [("name", VStr "neither"); ("module", VStr "enterprise_tools.user")].

(** The registry after [add_tool(cfg)] on an empty one. *)
Definition after_add (cfg : dict) : World :=
  state_of (@add_tool runtime cfg init).

(** The Process-Backed tool of [cfg_playwright], started and then stopped. *)
Definition stopped_playwright : BaseTool.t :=
  state_of (@stop runtime
    (state_of (@start runtime
       (BaseTool.init MCPBasedToolC (VStr "playwright") cfg_playwright)))).

(** The registry after that tool was added to an empty one and removed. *)
Definition after_remove : World :=
  state_of (@remove_tool runtime (VStr "playwright") (after_add cfg_playwright)).

(** A handle that was never connected. *)
Definition idle_client : MCPClient.t :=
  MCPClient.init (VStr "user-logger") (VStr "logs.local") (VInt 8000)
                 (VStr "sse") VNone.

(** A connected handle whose health thread has just passed the test of
    the [while] and stands before the test of the [if]. *)
Definition client_in_loop : MCPClient.t :=
  state_of (@MCPClient.health_step runtime
    (state_of (MCPClient.start_health_check (VInt 5)
      (state_of (MCPClient.connect idle_client))))).

End Lab.

(** ** Naming the results of the registry's calls *)

(** The class [create_tool] picks for a configuration, if any. *)
Definition class_of (cfg : dict) : option tool_class :=
  if dict_has "command" cfg then Some MCPBasedToolC
  else if dict_has "module" cfg && dict_has "function" cfg
       then Some InternalFunctionToolC
       else None.

(** The world once the object [t] was given the next identity. *)
Definition allocated (t : BaseTool.t) (w : World) : World :=
  set_next_id (S (next_id w)) (set_heap (<[next_id w := t]> (heap w)) w).

(** The world once [instance], of class [c], was entered under [k]. *)
Definition registered (k : pykey) (c : tool_class) (instance : nat) (w : World)
  : World :=
  set_tools (<[k := Closure c instance]> (tools w))
    (set_tool_instances (<[k := instance]> (tool_instances w)) w).

(** The world once the entries under [k] were deleted. *)
Definition unregistered (k : pykey) (w : World) : World :=
  set_tools (delete k (tools w))
    (set_tool_instances (delete k (tool_instances w)) w).

(** The registry and the tables of the agents are the same in both. *)
Definition same_registry (w w' : World) : Prop :=
  tool_instances w' = tool_instances w
  /\ tools w' = tools w
  /\ agents w' = agents w.

(** What no method of a tool changes: its class, its name, its
    configuration. *)
Definition same_tool (t t' : BaseTool.t) : Prop :=
  BaseTool.cls t' = BaseTool.cls t
  /\ BaseTool.name t' = BaseTool.name t
  /\ BaseTool.config t' = BaseTool.config t.

(** A handle on which [start_health_check(5)] was called before it was ever
    connected. *)
Definition monitored_idle_client : MCPClient.t :=
  state_of (MCPClient.start_health_check (VInt 5) Lab.idle_client).

(** ** Naming what [_attach_mcp_clients] builds *)

(** Is the entry [d] of "mcp_clients" enabled?  ([enabled] defaults to true.) *)
Definition enabled (d : dict) : bool :=
  truthy (dict_get d "enabled" (VBool true)).

(** An enabled entry has to give a name, a host and a port. *)
Definition entry_ok (d : dict) : bool :=
  negb (enabled d)
  || (dict_has "name" d && dict_has "host" d && dict_has "port" d).

(** The handle built from the entry [d], once connected. *)
Definition client_of (d : dict) : MCPClient.t :=
  MCPClient.Build (dict_get d "name" VNone) (dict_get d "host" VNone)
    (dict_get d "port" VNone) (dict_get d "auth_token" VNone)
    (dict_get d "protocol" (VStr "stdio")) true None false.

(** What connecting that handle prints. *)
Definition connecting (d : dict) : event :=
  LogConnecting (dict_get d "name" VNone) (dict_get d "protocol" (VStr "stdio"))
    (dict_get d "host" VNone) (dict_get d "port" VNone).

(** The handle [c] once [start_health_check(interval)] was called on it. *)
Definition monitored (interval : pyval) (c : MCPClient.t) : MCPClient.t :=
  MCPClient.set_health_thread
    (Some (MCPClient.Thread MCPClient.AtWhile interval)) c.

(** The interval [_start_health_checks] reads from a tool configuration
    whose "health_check", if it has one, is a dict. *)
Definition interval_of (cfg : dict) : pyval :=
  match dict_lookup "health_check" cfg with
  | Some (VDict hc) => dict_get hc "interval" (VInt 10)
  | _ => VInt 10
  end.

(** The "health_check" of a tool configuration is absent or a dict. *)
Definition health_check_ok (cfg : dict) : bool :=
  match dict_lookup "health_check" cfg with
  | Some (VDict _) | None => true
  | Some _ => false
  end.

(** The handles and the events of a tool that starts with the enabled
    entries among [ds] and no handle before. *)
Definition started_clients (cfg : dict) (ds : list dict) : list MCPClient.t :=
  map (fun d => monitored (interval_of cfg) (client_of d))
      (filter (fun d => enabled d = true) ds).

Definition started_events (ds : list dict) : list event :=
  map connecting (filter (fun d => enabled d = true) ds)
  ++ map (fun d => SysThreadStart (dict_get d "name" VNone))
         (filter (fun d => enabled d = true) ds).

(** The body of the loop of [_attach_mcp_clients], for one entry. *)
Definition attach_entry (cfg : pyval) : M BaseTool.t unit :=
  enabled <- lift (py_get cfg "enabled" (VBool true)) ;;
  if negb (truthy enabled) then ret tt
  else
    n <- lift (py_index cfg "name") ;;
    h <- lift (py_index cfg "host") ;;
    p <- lift (py_index cfg "port") ;;
    proto <- lift (py_get cfg "protocol" (VStr "stdio")) ;;
    tok <- lift (py_get cfg "auth_token" VNone) ;;
    client <- BaseTool.on_new MCPClient.connect (MCPClient.init n h p proto tok) ;;
    modify (fun self =>
      BaseTool.set_mcp_clients (BaseTool.mcp_clients self ++ [client]) self).

(** ** More concrete configurations, for the examples *)

Module Cases.

(** The entry of [Lab.logger], as a dict. *)
Definition logger_entry : dict :=
  [("name", VStr "user-logger"); ("host", VStr "logs.local");
   ("port", VInt 8000); ("protocol", VStr "sse")].

(** An entry that is switched off, and one that gives no host. *)
Definition disabled_entry : dict :=
  [("name", VStr "spare"); ("enabled", VBool false)].

Definition hostless_entry : dict :=
  [("name", VStr "half"); ("port", VInt 1)].

(** A Function-Backed configuration with one live and one disabled entry. *)
Definition cfg_user_info : dict :=
  [("name", VStr "user_info"); ("module", VStr "enterprise_tools.user");
   ("function", VStr "echo");
   ("health_check", VDict [("type", VStr "internal"); ("interval", VInt 30)]);
   ("mcp_clients", VList [VDict logger_entry; VDict disabled_entry])].

(** Its module does not exist. *)
Definition cfg_unknown_module : dict :=
  [("name", VStr "lost"); ("module", VStr "no.such.module");
   ("function", VStr "echo"); ("mcp_clients", VList [VDict logger_entry])].

(** A Process-Backed configuration whose second entry gives no host. *)
Definition cfg_hostless : dict :=
  [("name", VStr "leaky"); ("command", VList [VStr "npx"; VStr "server"]);
   ("mcp_clients", VList [VDict logger_entry; VDict hostless_entry;
                          VDict logger_entry])].

(** A Process-Backed configuration with an empty command. *)
Definition cfg_no_command : dict :=
  [("name", VStr "bare"); ("command", VList []);
   ("mcp_clients", VList [VDict logger_entry])].

(** The freshly constructed instance for a configuration. *)
Definition fresh (c : tool_class) (cfg : dict) : BaseTool.t :=
  BaseTool.init c (dict_get cfg "name" VNone) cfg.

(** That instance once [start] has run on it, in the runtime [Lab.runtime]. *)
Definition started (c : tool_class) (cfg : dict) : BaseTool.t :=
  state_of (@start Lab.runtime (fresh c cfg)).

(** What [add_tool(cfg)] on the world [w] leaves and prints there. *)
Definition after (cfg : dict) (w : World) : World :=
  state_of (@add_tool Lab.runtime cfg w).

Definition printed (cfg : dict) (w : World) : list event :=
  events_of (@add_tool Lab.runtime cfg w).

End Cases.

(** ** A registry in good order

    Both dicts have the same names; the instance under a name is an object
    of the heap, and the invocable under that name is the closure over that
    very object, of its class; and every object has an identity below the
    next one. *)
Definition registry_ok (w : World) : Prop :=
  dom (tool_instances w) = dom (tools w)
  /\ (forall k id, tool_instances w !! k = Some id ->
        exists t, heap w !! id = Some t
                  /\ tools w !! k = Some (Closure (BaseTool.cls t) id))
  /\ (forall id t, heap w !! id = Some t -> (id < next_id w)%nat).
(** * Properties *)

(** ** The monad *)

Lemma bind_Ok {S A B} (m : M S A) (f : A -> M S B) s a s1 ev1 :
  m s = (Ok a, s1, ev1) ->
  bind m f s = (outcome_of (f a s1), state_of (f a s1), ev1 ++ events_of (f a s1)).
Proof.
  intros E. unfold bind. rewrite E. by destruct (f a s1) as [[r s2] ev2].
Qed.

Lemma bind_Raise {S A B} (m : M S A) (f : A -> M S B) s e s1 ev1 :
  m s = (Raise e, s1, ev1) -> bind m f s = (Raise e, s1, ev1).
Proof. intros E. unfold bind. by rewrite E. Qed.

Lemma bind_Hang {S A B} (m : M S A) (f : A -> M S B) s s1 ev1 :
  m s = (Hang, s1, ev1) -> bind m f s = (Hang, s1, ev1).
Proof. intros E. unfold bind. by rewrite E. Qed.

(** A run that stops short of [f] leaves the state [m] left; one that goes
    on leaves the state [f] left. *)
Lemma bind_inv {S A B} (m : M S A) (f : A -> M S B) s r s' ev :
  bind m f s = (r, s', ev) ->
  (exists a s1 ev1 ev2,
      m s = (Ok a, s1, ev1) /\ f a s1 = (r, s', ev2) /\ ev = ev1 ++ ev2)
  \/ (m s = (Hang, s', ev) /\ r = Hang)
  \/ (exists e, m s = (Raise e, s', ev) /\ r = Raise e).
Proof.
  unfold bind. destruct (m s) as [[[a|e|] s1] ev1].
  - destruct (f a s1) as [[r2 s2] ev2] eqn:E. intros [= <- <- <-].
    left. by exists a, s1, ev1, ev2.
  - intros [= <- <- <-]. right. right. by exists e.
  - intros [= <- <- <-]. right. by left.
Qed.

Section Keeps.
Context {S : Type} (R : S -> S -> Prop).
Hypothesis R_refl : forall s, R s s.
Hypothesis R_trans : forall s1 s2 s3, R s1 s2 -> R s2 s3 -> R s1 s3.

Lemma keeps_ret {A} (a : A) : keeps R (ret a).
Proof. intros s r s' ev [= <- <- <-]. apply R_refl. Qed.

Lemma keeps_raise {A} e : keeps R (@raise S A e).
Proof. intros s r s' ev [= <- <- <-]. apply R_refl. Qed.

Lemma keeps_hang {A} : keeps R (@hang S A).
Proof. intros s r s' ev [= <- <- <-]. apply R_refl. Qed.

Lemma keeps_lift {A} (x : exn + A) : keeps R (lift x).
Proof. destruct x; [apply keeps_raise | apply keeps_ret]. Qed.

Lemma keeps_emit e : keeps R (emit e).
Proof. intros s r s' ev [= <- <- <-]. apply R_refl. Qed.

Lemma keeps_get : keeps R get.
Proof. intros s r s' ev [= <- <- <-]. apply R_refl. Qed.

Lemma keeps_modify (f : S -> S) : (forall s, R s (f s)) -> keeps R (modify f).
Proof. intros Hf s r s' ev [= <- <- <-]. apply Hf. Qed.

Lemma keeps_bind {A B} (m : M S A) (f : A -> M S B) :
  keeps R m -> (forall a, keeps R (f a)) -> keeps R (bind m f).
Proof.
  intros Hm Hf s r s' ev E.
  destruct (bind_inv _ _ _ _ _ _ E) as
    [(a & s1 & ev1 & ev2 & E1 & E2 & _) | [[E1 _] | (e & E1 & _)]].
  - eapply R_trans; [eapply Hm, E1 | eapply Hf, E2].
  - eapply Hm, E1.
  - eapply Hm, E1.
Qed.

Lemma keeps_for_each {A} (l : list A) (body : A -> M S unit) :
  (forall x, keeps R (body x)) -> keeps R (for_each l body).
Proof.
  intros Hb. induction l as [|x l IH]; simpl.
  - apply keeps_ret.
  - apply keeps_bind; [apply Hb | intros _; apply IH].
Qed.
End Keeps.

(** ** MCPClient *)

Module MCPClientFacts.
Import MCPClient.

Lemma connect_run c :
  connect c = (Ok tt, set_connected true c,
               [LogConnecting (name c) (protocol c) (host c) (port c)]).
Proof. reflexivity. Qed.

Lemma send_connected payload c :
  connected c = true ->
  send payload c = (Ok tt, c, [LogSend (name c) (protocol c) payload]).
Proof. intros E. unfold send, bind, get. simpl. by rewrite E. Qed.

Lemma send_not_connected payload c :
  connected c = false ->
  send payload c = (Ok tt, c, [LogNotConnected (name c)]).
Proof. intros E. unfold send, bind, get. simpl. by rewrite E. Qed.

(** [send] returns, whatever the state of the handle, and leaves the
    handle as it was. *)
Lemma send_run payload c :
  send payload c =
    (Ok tt, c, [if connected c then LogSend (name c) (protocol c) payload
                else LogNotConnected (name c)]).
Proof.
  destruct (connected c) eqn:E;
    [by apply send_connected | by apply send_not_connected].
Qed.

(** Evaluate a run on a client, by cases on whether its thread can sleep. *)
Ltac run_client :=
  cbv -[sleep];
  repeat match goal with
         | |- context [sleep ?v] => destruct (sleep v) as [?|[]]; cbv -[sleep]
         end;
  try done.

(** Once the flag is set the thread ends within three of its steps. *)
Lemma run_thread_stops `{Runtime} c :
  _stop_health c = true ->
  thread_done (state_of (run_thread 3 c)) = true
  /\ _stop_health (state_of (run_thread 3 c)) = true
  /\ outcome_of (run_thread 3 c) = Ok tt.
Proof.
  destruct c as [n h p tk pr cn [[[] iv]|] sh]; simpl; intros ->;
    destruct cn; run_client.
Qed.

(** More fuel than three steps changes nothing: three is all a [join]
    ever needs to know whether the thread ends. *)
Lemma run_thread_fuel `{Runtime} c k :
  _stop_health c = true -> run_thread (3 + k) c = run_thread 3 c.
Proof.
  destruct c as [n h p tk pr cn [[[] iv]|] sh]; simpl; intros ->;
    destruct cn, k; run_client.
Qed.

(** [disconnect] always returns: the flag it sets ends the thread it then
    waits for.  When it returns the thread has ended. *)
Lemma disconnect_returns `{Runtime} c :
  outcome_of (disconnect c) = Ok tt
  /\ thread_done (state_of (disconnect c)) = true
  /\ _stop_health (state_of (disconnect c)) = true.
Proof.
  destruct c as [n h p tk pr cn [[[] iv]|] sh]; run_client.
Qed.

End MCPClientFacts.

(** ** Loops over the clients a tool owns *)

Lemma on_each_total {S} (m : M S unit) (objs : list S) :
  (forall o, outcome_of (m o) = Ok tt) ->
  on_each m objs =
    (Ok tt, map (fun o => state_of (m o)) objs,
     flat_map (fun o => events_of (m o)) objs).
Proof.
  intros Hm. induction objs as [|o rest IH]; [done|].
  simpl. specialize (Hm o). destruct (m o) as [[r o'] ev].
  unfold outcome_of in Hm. simpl in Hm. subst r.
  by rewrite IH.
Qed.

Lemma on_each_send payload cs :
  on_each (MCPClient.send payload) cs = (Ok tt, cs, sent payload cs).
Proof.
  rewrite on_each_total by (intros c; by rewrite MCPClientFacts.send_run).
  f_equal; [f_equal|].
  - induction cs as [|c cs IH]; [done|].
    simpl. by rewrite IH, MCPClientFacts.send_run.
  - induction cs as [|c cs IH]; [done|].
    simpl. by rewrite IH, MCPClientFacts.send_run.
Qed.

Lemma on_each_disconnect `{Runtime} cs :
  on_each MCPClient.disconnect cs =
    (Ok tt, map (fun c => state_of (MCPClient.disconnect c)) cs,
     flat_map (fun c => events_of (MCPClient.disconnect c)) cs).
Proof. apply on_each_total. intros c. apply MCPClientFacts.disconnect_returns. Qed.

Lemma set_mcp_clients_same t :
  BaseTool.set_mcp_clients (BaseTool.mcp_clients t) t = t.
Proof. by destruct t. Qed.

Lemma on_clients_send payload t :
  BaseTool.on_clients (MCPClient.send payload) t =
    (Ok tt, t, sent payload (BaseTool.mcp_clients t)).
Proof.
  unfold BaseTool.on_clients. by rewrite on_each_send, set_mcp_clients_same.
Qed.

(** ** Invoking a tool *)

Lemma set_heap_same w self t :
  heap w !! self = Some t -> set_heap (<[self := t]> (heap w)) w = w.
Proof. intros E. unfold set_heap. rewrite insert_id by done. by destruct w. Qed.

(** A method that leaves its object as it found it leaves the world as it
    found it. *)
Lemma on_object_same {A} (m : M BaseTool.t A) w self t r ev :
  heap w !! self = Some t -> m t = (r, t, ev) -> on_object self m w = (r, w, ev).
Proof.
  intros E Em. unfold on_object. rewrite E, Em. by rewrite set_heap_same.
Qed.

(** C4: the invocable of a Function-Backed tool whose [start] has resolved
    the callable [f] calls [f] on the arguments it is given; when [f]
    returns [result] it sends [{"result": result}] through every client
    handle of the tool, in order (a connected handle delivers it, any other
    drops it with a warning), and returns [result] itself, leaving the tool
    as it was; when [f] raises, that very exception comes out and nothing is
    sent. *)
Theorem function_tool_invoke `{Runtime} (w : World) (self : nat)
    (t : BaseTool.t) (f : callable) (args : list pyval) (kwargs : dict) :
  heap w !! self = Some t ->
  BaseTool.function t = Some f ->
  call (Closure InternalFunctionToolC self) args kwargs w =
    match f args kwargs with
    | inr result =>
        (Ok result, w, sent (VDict [("result", result)]) (BaseTool.mcp_clients t))
    | inl e => (Raise e, w, [])
    end.
Proof.
  intros Hself Hf. simpl.
  destruct (f args kwargs) as [e|result] eqn:Ef.
  - apply on_object_same with (t := t); [done|].
    unfold InternalFunctionTool.tool, bind, get. by rewrite Hf, Ef.
  - apply on_object_same with (t := t); [done|].
    unfold InternalFunctionTool.tool, bind, get. rewrite Hf, Ef. simpl.
    by rewrite on_clients_send, app_nil_r.
Qed.

(** The scenario of C4: a tool named "echo" that wraps a callable returning
    its input, registered in an empty registry, answers [{"x": 1}] with
    [{"x": 1}], and its connected handle is sent [{"result": {"x": 1}}]. *)
Lemma function_tool_invoke_echo :
  heap (Lab.after_add Lab.cfg_echo) !! 0%nat
    = Some (state_of (@start Lab.runtime
              (BaseTool.init InternalFunctionToolC (VStr "echo") Lab.cfg_echo)))
  /\ tools (Lab.after_add Lab.cfg_echo) !! KStr "echo"
       = Some (Closure InternalFunctionToolC 0)
  /\ @call Lab.runtime (Closure InternalFunctionToolC 0)
       [VDict [("x", VInt 1)]] [] (Lab.after_add Lab.cfg_echo)
     = (Ok (VDict [("x", VInt 1)]), Lab.after_add Lab.cfg_echo,
        [LogSend (VStr "user-logger") (VStr "sse")
           (VDict [("result", VDict [("x", VInt 1)])])]).
Proof.
  split; [reflexivity|]. split; [reflexivity|].
  exact (@function_tool_invoke Lab.runtime (Lab.after_add Lab.cfg_echo) 0%nat
           (state_of (@start Lab.runtime
              (BaseTool.init InternalFunctionToolC (VStr "echo") Lab.cfg_echo)))
           Lab.echo [VDict [("x", VInt 1)]] [] eq_refl eq_refl).
Defined.

(** C5, as stated, fails where it has the dropped message counted: [send]
    on a handle that is not connected leaves every field of the handle as it
    was, so no quantity kept with the handle goes up by one. *)
Lemma send_dropped_not_counted :
  ~ exists count : MCPClient.t -> nat,
      count (state_of (MCPClient.send (VStr "ping") Lab.idle_client))
      = S (count Lab.idle_client).
Proof.
  intros [count Hc].
  rewrite MCPClientFacts.send_not_connected in Hc by reflexivity.
  unfold state_of in Hc. simpl in Hc. lia.
Qed.

(** C5, amended: [send] on a handle that is not connected returns without
    raising, leaves the handle exactly as it was (nothing is counted) and
    logs one warning; and the invocable of a Process-Backed tool all of
    whose handles are disconnected returns its acknowledgement string, with
    one such warning per handle and the tool left as it was. *)
Theorem send_dropped_invoke_acknowledges `{Runtime} (c : MCPClient.t)
    (p : pyval) (w : World) (self : nat) (t : BaseTool.t)
    (action payload : pyval) :
  MCPClient.connected c = false ->
  heap w !! self = Some t ->
  Forall (fun c => MCPClient.connected c = false) (BaseTool.mcp_clients t) ->
  MCPClient.send p c = (Ok tt, c, [LogNotConnected (MCPClient.name c)])
  /\ call (Closure MCPBasedToolC self) [action; payload] [] w =
       (Ok (MCPBasedTool.ack (BaseTool.name t) action), w,
        map (fun c => LogNotConnected (MCPClient.name c)) (BaseTool.mcp_clients t)).
Proof.
  intros Hc Hself Hall. split; [by apply MCPClientFacts.send_not_connected|].
  unfold call, MCPBasedTool.bind_params. simpl.
  unfold bind at 1. simpl.
  erewrite on_object_same; [reflexivity|done|].
  unfold MCPBasedTool.tool, bind. rewrite on_clients_send. simpl.
  rewrite app_nil_r. do 2 f_equal.
  unfold sent. apply map_ext_Forall.
  eapply Forall_impl; [exact Hall|]. intros c' Hc'. simpl in Hc'. by rewrite Hc'.
Qed.

Lemma send_dropped_invoke_acknowledges_witness :
  MCPClient.send (VStr "ping") Lab.idle_client
    = (Ok tt, Lab.idle_client, [LogNotConnected (VStr "user-logger")])
  /\ @call Lab.runtime (Closure MCPBasedToolC 0) [VStr "goto"; VNone] []
       Lab.after_remove
     = (Ok (VStr "[playwright] goto executed"), Lab.after_remove,
        [LogNotConnected (VStr "user-logger")]).
Proof.
  refine (@send_dropped_invoke_acknowledges Lab.runtime Lab.idle_client
            (VStr "ping") Lab.after_remove 0%nat Lab.stopped_playwright
            (VStr "goto") VNone eq_refl eq_refl _).
  repeat constructor.
Defined.

(** ** Tearing a handle down *)

Module DisconnectFacts.
Import MCPClient.

(** Where the thread takes its steps only while [disconnect] waits for it,
    a thread that is not between the two tests of its loop when
    [disconnect] is called never sees the handle again: the handle ends up
    disconnected, and a second [disconnect] finds nothing left to do. *)
Lemma disconnect_quiet `{Runtime} c :
  match _health_thread c with
  | Some (Thread AtIf _) => False
  | _ => True
  end ->
  connected (state_of (disconnect c)) = false
  /\ state_of (disconnect (state_of (disconnect c))) = state_of (disconnect c).
Proof.
  destruct c as [n h p tk pr cn [[[] iv]|] sh]; try done; intros _;
    MCPClientFacts.run_client.
Qed.

(** A second [disconnect] always returns, with the handle disconnected. *)
Lemma disconnect_again `{Runtime} c :
  outcome_of (disconnect (state_of (disconnect c))) = Ok tt
  /\ connected (state_of (disconnect (state_of (disconnect c)))) = false.
Proof.
  destruct c as [n h p tk pr cn [[[] iv]|] sh];
    MCPClientFacts.run_client; destruct cn; MCPClientFacts.run_client.
Qed.

End DisconnectFacts.

(** C6, at the input where the code departs from it: the health thread of a
    connected handle has passed the test of its [while] and stands before
    [if not self.connected].  [disconnect] clears [connected], sets the flag
    and joins; the thread, running on, finds the handle not connected and
    connects it again before it ends.  [disconnect] returns after the thread
    has ended, but with the handle connected; a second [disconnect] leaves
    another state than the first. *)
Theorem disconnect_while_checking_reconnects :
  MCPClient._health_thread Lab.client_in_loop
    = Some (MCPClient.Thread MCPClient.AtIf (VInt 5))
  /\ @MCPClient.disconnect Lab.runtime Lab.client_in_loop
     = (Ok tt,
        MCPClient.Build (VStr "user-logger") (VStr "logs.local") (VInt 8000)
          VNone (VStr "sse") true
          (Some (MCPClient.Thread MCPClient.Finished (VInt 5))) true,
        [LogHealthFailed (VStr "user-logger");
         LogConnecting (VStr "user-logger") (VStr "sse") (VStr "logs.local")
           (VInt 8000);
         LogDisconnected (VStr "user-logger")])
  /\ MCPClient.connected
       (state_of (@MCPClient.disconnect Lab.runtime
          (state_of (@MCPClient.disconnect Lab.runtime Lab.client_in_loop)))) = false.
Proof. repeat split. Qed.

(** ** Stopping a tool *)

(** The clients of [t] after each was disconnected, and what that logged. *)
Lemma base_stop_run `{Runtime} t :
  BaseTool.stop t =
    (Ok tt,
     BaseTool.set_mcp_clients
       (map (fun c => state_of (MCPClient.disconnect c)) (BaseTool.mcp_clients t)) t,
     flat_map (fun c => events_of (MCPClient.disconnect c)) (BaseTool.mcp_clients t)).
Proof.
  unfold BaseTool.stop, BaseTool.on_clients. by rewrite on_each_disconnect.
Qed.

(** C7, as stated, fails where it has the errors of the termination kept
    from the caller: the tool started from [cfg_sudo] owns a process whose
    [terminate] raises, and [stop] raises that error, after it has
    disconnected the handle and before it prints that the tool stopped. *)
Lemma stop_propagates_termination_error :
  let t := state_of (@MCPBasedTool.start Lab.runtime
             (BaseTool.init MCPBasedToolC (VStr "root_server") Lab.cfg_sudo)) in
  BaseTool.process t = Some 13%nat
  /\ outcome_of (@MCPBasedTool.stop Lab.runtime t) = Raise (OtherError 1)
  /\ events_of (@MCPBasedTool.stop Lab.runtime t)
     = [LogDisconnected (VStr "user-logger"); SysTerminate 13%nat].
Proof. repeat split. Qed.

(** C7, amended: [stop] of a Process-Backed tool that owns the process [p]
    disconnects every client handle, in order, and only then calls
    [terminate] on [p]; it returns normally when [terminate] does, and when
    [terminate] raises, [stop] raises the same error, the handles already
    disconnected. *)
Theorem stop_disconnects_then_terminates `{Runtime} (t : BaseTool.t) (p : proc) :
  BaseTool.process t = Some p ->
  let t' := BaseTool.set_mcp_clients
              (map (fun c => state_of (MCPClient.disconnect c))
                   (BaseTool.mcp_clients t)) t in
  let disconnects := flat_map (fun c => events_of (MCPClient.disconnect c))
                              (BaseTool.mcp_clients t) in
  MCPBasedTool.stop t =
    match terminate p with
    | inr _ =>
        (Ok tt, t',
         disconnects ++ [SysTerminate p; LogStopped MCPBasedToolC (BaseTool.name t)])
    | inl e => (Raise e, t', disconnects ++ [SysTerminate p])
    end.
Proof.
  intros Hp t' disconnects.
  unfold MCPBasedTool.stop.
  rewrite (bind_Ok _ _ _ _ _ _ (base_stop_run t)).
  fold t' disconnects.
  assert (BaseTool.process t' = Some p) as Hp' by (by destruct t).
  assert (BaseTool.name t' = BaseTool.name t) as Hn by (by destruct t).
  unfold bind, get, emit, lift, raise, ret, outcome_of, state_of, events_of.
  cbn [fst snd]. rewrite Hp'.
  destruct (terminate p) as [e|[]]; cbn [fst snd app]; rewrite ?Hn; reflexivity.
Qed.

Lemma stop_disconnects_then_terminates_witness :
  let t := state_of (@MCPBasedTool.start Lab.runtime
             (BaseTool.init MCPBasedToolC (VStr "playwright") Lab.cfg_playwright)) in
  @MCPBasedTool.stop Lab.runtime t =
    (Ok tt,
     BaseTool.set_mcp_clients
       (map (fun c => state_of (@MCPClient.disconnect Lab.runtime c)) (BaseTool.mcp_clients t)) t,
     [LogDisconnected (VStr "user-logger"); SysTerminate 7%nat;
      LogStopped MCPBasedToolC (VStr "playwright")]).
Proof.
  intros t.
  exact (@stop_disconnects_then_terminates Lab.runtime t 7%nat eq_refl).
Defined.

(** ** What the methods of a tool leave alone *)

Lemma same_tool_refl t : same_tool t t.
Proof. done. Qed.

Lemma same_tool_trans t1 t2 t3 : same_tool t1 t2 -> same_tool t2 t3 -> same_tool t1 t3.
Proof. unfold same_tool. intros (? & ? & ?) (? & ? & ?). repeat split; congruence. Qed.

Lemma keeps_on_clients m : keeps same_tool (BaseTool.on_clients m).
Proof.
  intros t r t' ev. unfold BaseTool.on_clients.
  destruct (on_each m (BaseTool.mcp_clients t)) as [[r0 cs] ev0].
  intros [= <- <- <-]. by destruct t.
Qed.

Lemma keeps_on_new {A} (m : M MCPClient.t A) c : keeps same_tool (BaseTool.on_new m c).
Proof.
  intros t r t' ev. unfold BaseTool.on_new.
  destruct (m c) as [[[a|e|] c'] ev0]; intros [= <- <- <-]; done.
Qed.

(** Takes [keeps R m] apart along the structure of the method [m], down to
    the methods it calls and the updates it makes; [rf] and [tr] prove that
    [R] is reflexive and transitive. *)
Ltac keeps_tac rf tr :=
  repeat match goal with
         | |- forall _, _ => intro
         | |- keeps _ (bind _ _) => apply keeps_bind; [exact tr | | ]
         | |- keeps _ (for_each _ _) => apply keeps_for_each; [exact rf | exact tr | ]
         | |- keeps _ (ret _) => apply keeps_ret; exact rf
         | |- keeps _ (raise _) => apply keeps_raise; exact rf
         | |- keeps _ hang => apply keeps_hang; exact rf
         | |- keeps _ (lift _) => apply keeps_lift; exact rf
         | |- keeps _ (emit _) => apply keeps_emit; exact rf
         | |- keeps _ get => apply keeps_get; exact rf
         | |- keeps _ (modify _) => apply keeps_modify
         | |- keeps _ (match ?x with _ => _ end) => destruct x
         | |- keeps _ _ => progress cbv zeta
         end.

Lemma keeps_attach : keeps same_tool BaseTool._attach_mcp_clients.
Proof.
  unfold BaseTool._attach_mcp_clients.
  keeps_tac same_tool_refl same_tool_trans;
    try apply keeps_on_new; try (by destruct s).
Qed.

Lemma keeps_health : keeps same_tool BaseTool._start_health_checks.
Proof.
  unfold BaseTool._start_health_checks.
  keeps_tac same_tool_refl same_tool_trans; apply keeps_on_clients.
Qed.

Lemma keeps_start `{Runtime} : keeps same_tool start.
Proof.
  unfold start, MCPBasedTool.start, InternalFunctionTool.start.
  keeps_tac same_tool_refl same_tool_trans;
    try apply keeps_attach; try apply keeps_health; try (by destruct s).
Qed.

Lemma keeps_stop `{Runtime} : keeps same_tool stop.
Proof.
  unfold stop, MCPBasedTool.stop, InternalFunctionTool.stop, BaseTool.stop.
  keeps_tac same_tool_refl same_tool_trans; apply keeps_on_clients.
Qed.

(** ** What the calls of the registry compute *)

Lemma create_tool_run cfg w :
  create_tool cfg w =
    match dict_lookup "name" cfg, class_of cfg with
    | Some n, Some c => (Ok (next_id w), allocated (BaseTool.init c n cfg) w, [])
    | Some n, None => (Raise (ValueError n), w, [])
    | None, _ => (Raise (KeyError (VStr "name")), w, [])
    end.
Proof.
  unfold create_tool, class_of, dict_index.
  destruct (dict_lookup "name" cfg) as [n|];
    destruct (dict_has "command" cfg);
    try destruct (dict_has "module" cfg && dict_has "function" cfg);
    reflexivity.
Qed.

Lemma on_object_allocated {A} (m : M BaseTool.t A) t w :
  on_object (next_id w) m (allocated t w) =
    (outcome_of (m t), allocated (state_of (m t)) w, events_of (m t)).
Proof.
  unfold on_object, allocated. simpl. rewrite lookup_insert_eq.
  destruct (m t) as [[r t'] ev]. unfold set_heap, set_next_id. simpl.
  by rewrite insert_insert_eq.
Qed.

Lemma add_tool_run `{Runtime} cfg w :
  add_tool cfg w =
    match dict_lookup "name" cfg, class_of cfg with
    | Some n, Some c =>
        match start (BaseTool.init c n cfg) with
        | (Ok _, t', ev) =>
            match to_key n with
            | inr k =>
                (Ok tt, registered k c (next_id w) (allocated t' w),
                 ev ++ [LogAdded n])
            | inl e => (Raise e, allocated t' w, ev)
            end
        | (Raise e, t', ev) => (Raise e, allocated t' w, ev)
        | (Hang, t', ev) => (Hang, allocated t' w, ev)
        end
    | Some n, None => (Raise (ValueError n), w, [])
    | None, _ => (Raise (KeyError (VStr "name")), w, [])
    end.
Proof.
  unfold add_tool.
  pose proof (create_tool_run cfg w) as Hc.
  destruct (dict_lookup "name" cfg) as [n|] eqn:En.
  2: { by rewrite (bind_Raise _ _ _ _ _ _ Hc). }
  destruct (class_of cfg) as [c|].
  2: { by rewrite (bind_Raise _ _ _ _ _ _ Hc). }
  rewrite (bind_Ok _ _ _ _ _ _ Hc).
  pose proof (on_object_allocated start (BaseTool.init c n cfg) w) as Hs.
  pose proof (keeps_start (BaseTool.init c n cfg)) as Hk.
  destruct (start (BaseTool.init c n cfg)) as [[[[]|e|] t'] ev] eqn:Est.
  - specialize (Hk _ _ _ eq_refl). destruct Hk as (Hcls & _ & _).
    unfold outcome_of, state_of, events_of in Hs. simpl in Hs.
    rewrite (bind_Ok _ _ _ _ _ _ Hs).
    unfold dict_index. rewrite En.
    destruct (to_key n) as [e|k] eqn:Ek.
    + unfold outcome_of, state_of, events_of, bind, lift, ret, raise; simpl.
      rewrite Ek. simpl. by rewrite ?app_nil_r.
    + unfold outcome_of, state_of, events_of, bind, lift, ret, raise, modify, emit,
        to_tool, on_object, get; simpl.
      rewrite Ek. simpl.
      rewrite lookup_insert_eq. simpl. rewrite ?Ek. simpl. rewrite ?Hcls. simpl.
      rewrite ?insert_insert_eq, ?app_nil_r. reflexivity.
  - unfold outcome_of, state_of, events_of in Hs. simpl in Hs.
    rewrite (bind_Raise _ _ _ _ _ _ Hs). reflexivity.
  - unfold outcome_of, state_of, events_of in Hs. simpl in Hs.
    rewrite (bind_Hang _ _ _ _ _ Hs). reflexivity.
Qed.

Lemma same_registry_refl w : same_registry w w.
Proof. done. Qed.

Lemma same_registry_trans w1 w2 w3 :
  same_registry w1 w2 -> same_registry w2 w3 -> same_registry w1 w3.
Proof.
  unfold same_registry. intros (? & ? & ?) (? & ? & ?). repeat split; congruence.
Qed.

(** A method of a tool touches the heap and nothing else. *)
Lemma keeps_on_object {A} self (m : M BaseTool.t A) :
  keeps same_registry (on_object self m).
Proof.
  intros w r w' ev. unfold on_object.
  destruct (heap w !! self) as [t|]; [destruct (m t) as [[r0 t'] ev0]|];
    intros [= <- <- <-]; done.
Qed.

Lemma on_object_run {A} self (m : M BaseTool.t A) w t :
  heap w !! self = Some t ->
  on_object self m w =
    (outcome_of (m t), set_heap (<[self := state_of (m t)]> (heap w)) w,
     events_of (m t)).
Proof.
  intros E. unfold on_object. rewrite E. by destruct (m t) as [[r t'] ev].
Qed.

Lemma remove_tool_run `{Runtime} name w :
  remove_tool name w =
    match to_key name with
    | inl e => (Raise e, w, [])
    | inr k =>
        match tool_instances w !! k with
        | None => (Ok tt, w, [])
        | Some instance =>
            match on_object instance stop w with
            | (Ok _, w1, ev) =>
                match tools w !! k with
                | Some _ => (Ok tt, unregistered k w1, ev ++ [LogRemoved name])
                | None =>
                    (Raise (KeyError name),
                     set_tool_instances (delete k (tool_instances w)) w1, ev)
                end
            | (Raise e, w1, ev) => (Raise e, w1, ev)
            | (Hang, w1, ev) => (Hang, w1, ev)
            end
        end
    end.
Proof.
  unfold remove_tool.
  destruct (to_key name) as [e|k]; [reflexivity|].
  unfold bind at 1. simpl. unfold bind at 1. simpl.
  destruct (tool_instances w !! k) as [instance|]; [|reflexivity].
  pose proof (keeps_on_object instance stop w) as Hk.
  destruct (on_object instance stop w) as [[[[]|e|] w1] ev] eqn:Eo.
  - destruct (Hk _ _ _ eq_refl) as (Hi & Ht & _).
    rewrite (bind_Ok _ _ _ _ _ _ Eo).
    unfold outcome_of, state_of, events_of, bind, modify, get, emit, raise. simpl.
    assert (tools w1 !! k = tools w !! k) as Hl by (by rewrite Ht).
    rewrite Hl, Hi.
    destruct (tools w !! k); simpl; rewrite ?app_nil_r; unfold unregistered;
      rewrite ?Hi; reflexivity.
  - by rewrite (bind_Raise _ _ _ _ _ _ Eo).
  - by rewrite (bind_Hang _ _ _ _ _ Eo).
Qed.

(** ** Adding a tool *)

(** C1, as stated, fails: "playwright" is registered, with the object 0;
    [add_tool] with a second configuration of that name returns normally,
    and both dicts then hold the second object, 1, under the name. *)
Lemma add_tool_duplicate_overwrites :
  tool_instances (Lab.after_add Lab.cfg_playwright) !! KStr "playwright" = Some 0%nat
  /\ outcome_of (@add_tool Lab.runtime Lab.cfg_playwright2
                   (Lab.after_add Lab.cfg_playwright)) = Ok tt
  /\ tool_instances (state_of (@add_tool Lab.runtime Lab.cfg_playwright2
                       (Lab.after_add Lab.cfg_playwright))) !! KStr "playwright"
     = Some 1%nat
  /\ tools (state_of (@add_tool Lab.runtime Lab.cfg_playwright2
              (Lab.after_add Lab.cfg_playwright))) !! KStr "playwright"
     = Some (Closure MCPBasedToolC 1).
Proof. repeat split. Qed.

(** C1, amended: [add_tool] has no test for a name that is taken.  For a
    configuration whose name is already registered (for the object [old]),
    and whose new instance starts, [add_tool] returns normally; both dicts
    then hold the new instance under that name, the instance map the new
    object and the visible mapping its invocable.  The new object is not the
    earlier one, and the earlier one is left in the heap as it was: it is
    not stopped. *)
Theorem add_tool_existing_name_replaces `{Runtime} (cfg : dict) (w : World)
    (n : pyval) (k : pykey) (c : tool_class) (old : nat)
    (t' : BaseTool.t) (ev : list event) :
  dict_lookup "name" cfg = Some n ->
  to_key n = inr k ->
  class_of cfg = Some c ->
  tool_instances w !! k = Some old ->
  (old < next_id w)%nat ->
  start (BaseTool.init c n cfg) = (Ok tt, t', ev) ->
  add_tool cfg w =
    (Ok tt, registered k c (next_id w) (allocated t' w), ev ++ [LogAdded n])
  /\ tool_instances (state_of (add_tool cfg w)) !! k = Some (next_id w)
  /\ tools (state_of (add_tool cfg w)) !! k = Some (Closure c (next_id w))
  /\ heap (state_of (add_tool cfg w)) !! next_id w = Some t'
  /\ next_id w <> old
  /\ heap (state_of (add_tool cfg w)) !! old = heap w !! old.
Proof.
  intros En Ek Ec Hold Hlt Est.
  assert (add_tool cfg w =
    (Ok tt, registered k c (next_id w) (allocated t' w), ev ++ [LogAdded n])) as E.
  { rewrite add_tool_run, En, Ec, Est, Ek. reflexivity. }
  rewrite E. unfold state_of. simpl.
  repeat split.
  - apply lookup_insert_eq.
  - apply lookup_insert_eq.
  - apply lookup_insert_eq.
  - lia.
  - apply lookup_insert_ne. lia.
Qed.

Lemma add_tool_existing_name_replaces_witness :
  @add_tool Lab.runtime Lab.cfg_playwright2 (Lab.after_add Lab.cfg_playwright)
  = (Ok tt,
     registered (KStr "playwright") MCPBasedToolC 1
       (allocated
          (state_of (@start Lab.runtime
             (BaseTool.init MCPBasedToolC (VStr "playwright") Lab.cfg_playwright2)))
          (Lab.after_add Lab.cfg_playwright)),
     [LogStartingProcess (VStr "playwright") "npx other";
      SysPopen (VList [VStr "npx"; VStr "other"]) 7%nat;
      LogReady MCPBasedToolC (VStr "playwright")] ++ [LogAdded (VStr "playwright")]).
Proof.
  refine (proj1 (@add_tool_existing_name_replaces Lab.runtime Lab.cfg_playwright2
            (Lab.after_add Lab.cfg_playwright) (VStr "playwright")
            (KStr "playwright") MCPBasedToolC 0%nat _ _
            eq_refl eq_refl eq_refl eq_refl _ eq_refl)).
  vm_compute. lia.
Defined.

(** C2: when [start] of the new instance raises, [add_tool] raises the same
    error to its caller and leaves the registry unchanged: both dicts are
    what they were before the call, so the name of a configuration that was
    in neither dict is in neither afterwards, and no partial registration
    is visible. *)
Theorem add_tool_failed_start_changes_nothing `{Runtime} (cfg : dict) (w : World)
    (n : pyval) (c : tool_class) (e : exn) (t' : BaseTool.t) (ev : list event) :
  dict_lookup "name" cfg = Some n ->
  class_of cfg = Some c ->
  start (BaseTool.init c n cfg) = (Raise e, t', ev) ->
  outcome_of (add_tool cfg w) = Raise e
  /\ tool_instances (state_of (add_tool cfg w)) = tool_instances w
  /\ tools (state_of (add_tool cfg w)) = tools w
  /\ forall k, to_key n = inr k ->
       tool_instances w !! k = None -> tools w !! k = None ->
       tool_instances (state_of (add_tool cfg w)) !! k = None
       /\ tools (state_of (add_tool cfg w)) !! k = None.
Proof.
  intros En Ec Est. rewrite add_tool_run, En, Ec, Est.
  unfold outcome_of, state_of. simpl. repeat split; done.
Qed.

Lemma add_tool_failed_start_changes_nothing_witness :
  let w := Lab.after_add Lab.cfg_echo in
  let w' := state_of (@add_tool Lab.runtime Lab.cfg_unlaunchable w) in
  tool_instances w !! KStr "echo" = Some 0%nat
  /\ outcome_of (@add_tool Lab.runtime Lab.cfg_unlaunchable w)
     = Raise (OtherError 2)
  /\ tool_instances w' = tool_instances w
  /\ tools w' = tools w
  /\ tool_instances w' !! KStr "playwright" = None
  /\ tools w' !! KStr "playwright" = None.
Proof.
  intros w w'. split; [reflexivity|].
  destruct (@add_tool_failed_start_changes_nothing Lab.runtime
              Lab.cfg_unlaunchable w (VStr "playwright") MCPBasedToolC
              (OtherError 2) _ _ eq_refl eq_refl eq_refl)
    as (Ho & Hi & Ht & Hk).
  destruct (Hk (KStr "playwright") eq_refl eq_refl eq_refl) as [Hki Hkt].
  exact (conj Ho (conj Hi (conj Ht (conj Hki Hkt)))).
Defined.

(** ** Removing a tool *)

(** C3, as stated, fails: nothing is registered under "ghost", and
    [remove_tool("ghost")] returns normally, having done nothing. *)
Lemma remove_tool_absent_returns :
  @remove_tool Lab.runtime (VStr "ghost") init = (Ok tt, init, []).
Proof. reflexivity. Qed.

(** C3, amended: for a name under which nothing is registered,
    [remove_tool] returns normally, without an error; it changes nothing,
    calls no [stop] and prints nothing.  After a call that returned, the
    name is not registered: a second call with the same name is such a call,
    it returns normally and releases nothing a second time. *)
Theorem remove_tool_absent_is_silent `{Runtime} (name : pyval) (k : pykey)
    (w w0 w1 : World) (ev1 : list event) :
  to_key name = inr k ->
  tool_instances w !! k = None ->
  remove_tool name w0 = (Ok tt, w1, ev1) ->
  remove_tool name w = (Ok tt, w, [])
  /\ tool_instances w1 !! k = None
  /\ remove_tool name w1 = (Ok tt, w1, []).
Proof.
  intros Ek Hw E.
  assert (forall w', tool_instances w' !! k = None ->
                     remove_tool name w' = (Ok tt, w', [])) as Habsent.
  { intros w' E'. by rewrite remove_tool_run, Ek, E'. }
  assert (tool_instances w1 !! k = None) as Hgone.
  { rewrite remove_tool_run, Ek in E.
    destruct (tool_instances w0 !! k) as [instance|] eqn:Ei.
    - destruct (on_object instance stop w0) as [[[[]|e|] w2] ev2]; try done.
      destruct (tools w0 !! k); [|done].
      injection E as <- _. unfold unregistered. simpl. apply lookup_delete_eq.
    - injection E as <- _. done. }
  repeat split; [by apply Habsent | done | by apply Habsent].
Qed.

Lemma remove_tool_absent_is_silent_witness :
  @remove_tool Lab.runtime (VStr "playwright") init = (Ok tt, init, [])
  /\ tool_instances Lab.after_remove !! KStr "playwright" = None
  /\ @remove_tool Lab.runtime (VStr "playwright") Lab.after_remove
     = (Ok tt, Lab.after_remove, []).
Proof.
  refine (@remove_tool_absent_is_silent Lab.runtime (VStr "playwright")
            (KStr "playwright") init (Lab.after_add Lab.cfg_playwright)
            Lab.after_remove
            [LogDisconnected (VStr "user-logger"); SysTerminate 7%nat;
             LogStopped MCPBasedToolC (VStr "playwright");
             LogRemoved (VStr "playwright")] _ _ _);
    vm_compute; reflexivity.
Defined.

(** ** The factory *)



(** ** The two dicts of the registry go together *)

Lemma keeps_attach_tool agent k f :
  keeps (fun w w' => tool_instances w' = tool_instances w /\ tools w' = tools w
                     /\ heap w' = heap w /\ next_id w' = next_id w)
        (attach_tool agent k f).
Proof. intros w r w' ev [= <- <- <-]. done. Qed.

Lemma keeps_attach_all agent :
  keeps (fun w w' => tool_instances w' = tool_instances w /\ tools w' = tools w
                     /\ heap w' = heap w /\ next_id w' = next_id w)
        (attach_all_to_agent agent).
Proof.
  unfold attach_all_to_agent.
  apply keeps_bind.
  - intros w1 w2 w3 (? & ? & ? & ?) (? & ? & ? & ?). repeat split; congruence.
  - intros w r w' ev [= <- <- <-]. done.
  - intros w0. apply keeps_for_each.
    + done.
    + intros w1 w2 w3 (? & ? & ? & ?) (? & ? & ? & ?). repeat split; congruence.
    + intros kf. apply keeps_attach_tool.
Qed.

Lemma keeps_call `{Runtime} f args kwargs : keeps same_registry (call f args kwargs).
Proof.
  destruct f as [[] self]; simpl.
  - apply keeps_bind; [exact same_registry_trans | |].
    + apply keeps_lift. exact same_registry_refl.
    + intros ap. apply keeps_on_object.
  - apply keeps_on_object.
Qed.

Lemma keeps_health_tick `{Runtime} self i : keeps same_registry (health_tick self i).
Proof. apply keeps_on_object. Qed.

(** Whatever its outcome, a call of the API, an invocation or a step of a
    health thread leaves the two dicts with the same keys if they had the
    same keys. *)
Lemma run_op_keeps_domains `{Runtime} (o : op) (w : World) :
  dom (tool_instances w) = dom (tools w) ->
  dom (tool_instances (state_of (run_op o w))) = dom (tools (state_of (run_op o w))).
Proof.
  intros Hd. destruct o as [cfg|name|agent|f args kwargs|self i]; simpl.
  - rewrite add_tool_run.
    destruct (dict_lookup "name" cfg) as [n|]; [|done].
    destruct (class_of cfg) as [c|]; [|done].
    destruct (start (BaseTool.init c n cfg)) as [[[[]|e|] t'] ev]; try done.
    destruct (to_key n) as [e|k]; [done|].
    unfold state_of, registered. simpl. rewrite !dom_insert_L. by rewrite Hd.
  - rewrite remove_tool_run.
    destruct (to_key name) as [e|k]; [done|].
    destruct (tool_instances w !! k) as [instance|] eqn:Ei; [|done].
    pose proof (keeps_on_object instance stop w) as Hk.
    destruct (on_object instance stop w) as [[[[]|e|] w1] ev];
      destruct (Hk _ _ _ eq_refl) as (Hi & Ht & _).
    + destruct (tools w !! k) eqn:Et.
      * unfold state_of, unregistered. simpl. rewrite !dom_delete_L, Hi, Ht.
        by rewrite Hd.
      * exfalso. apply (not_elem_of_dom (tools w) k) in Et. apply Et.
        rewrite <- Hd. apply elem_of_dom. eauto.
    + unfold state_of. simpl. by rewrite Hi, Ht.
    + unfold state_of. simpl. by rewrite Hi, Ht.
  - pose proof (keeps_attach_all agent w) as Hk.
    destruct (attach_all_to_agent agent w) as [[r w1] ev].
    destruct (Hk _ _ _ eq_refl) as (Hi & Ht & _).
    unfold state_of. simpl. by rewrite Hi, Ht.
  - assert (keeps same_registry (call f args kwargs ;; ret tt)) as Hk.
    { apply keeps_bind; [exact same_registry_trans | apply keeps_call |].
      intros _. apply keeps_ret. exact same_registry_refl. }
    specialize (Hk w).
    destruct ((call f args kwargs ;; ret tt) w) as [[r w1] ev].
    destruct (Hk _ _ _ eq_refl) as (Hi & Ht & _).
    unfold state_of. simpl. by rewrite Hi, Ht.
  - pose proof (keeps_health_tick self i w) as Hk.
    destruct (health_tick self i w) as [[r w1] ev].
    destruct (Hk _ _ _ eq_refl) as (Hi & Ht & _).
    unfold state_of. simpl. by rewrite Hi, Ht.
Qed.

Lemma run_ops_step `{Runtime} (o : op) (rest : list op) (w : World) :
  run_ops (o :: rest) w =
    match outcome_of (run_op o w) with
    | Hang => state_of (run_op o w)
    | _ => run_ops rest (state_of (run_op o w))
    end.
Proof.
  simpl. destruct (run_op o w) as [[[] w1] ev]; reflexivity.
Qed.

Lemma run_ops_keeps_domains `{Runtime} (ops : list op) (w : World) :
  dom (tool_instances w) = dom (tools w) ->
  dom (tool_instances (run_ops ops w)) = dom (tools (run_ops ops w)).
Proof.
  revert w. induction ops as [|o rest IH]; intros w Hd; [done|].
  rewrite run_ops_step.
  pose proof (run_op_keeps_domains o w Hd) as Hstep.
  destruct (outcome_of (run_op o w)); auto.
Qed.

(** C9: from a freshly constructed registry, after any sequence of calls
    (of [add_tool] and [remove_tool], and also of [attach_all_to_agent], of
    the invocables, and of steps of the health threads in between; calls
    that return normally and calls that raise alike) the instance map and
    the visible mapping have the same keys: a name has an instance exactly
    when it has an invocable. *)
Theorem registry_dicts_have_same_keys `{Runtime} (ops : list op) :
  dom (tool_instances (run_ops ops init)) = dom (tools (run_ops ops init)).
Proof. apply run_ops_keeps_domains. reflexivity. Qed.

(** ** Attaching the tools to an agent *)

(** The table in which every pair of [l] was entered, in order. *)
Lemma attach_each_run agent (l : list (pykey * Invocable)) (w : World) :
  l <> [] ->
  for_each l (fun kf => attach_tool agent (fst kf) (snd kf)) w =
    (Ok tt,
     set_agents (<[agent := foldl (fun tbl kf => <[fst kf := snd kf]> tbl)
                              (agent_table w agent) l]> (agents w)) w,
     []).
Proof.
  revert w. induction l as [|kf l IH]; intros w Hne; [done|].
  simpl. unfold bind at 1. unfold attach_tool at 1, modify at 1.
  destruct l as [|kf' l'].
  - reflexivity.
  - rewrite IH by done. simpl. unfold agent_table. simpl.
    rewrite lookup_insert_eq. simpl. unfold set_agents. simpl.
    by rewrite insert_insert_eq.
Qed.

Lemma foldl_insert_lookup (l : list (pykey * Invocable)) (tbl : gmap pykey Invocable) k :
  NoDup (fst <$> l) ->
  foldl (fun tbl kf => <[fst kf := snd kf]> tbl) tbl l !! k =
    match (list_to_map l : gmap pykey Invocable) !! k with
    | Some f => Some f
    | None => tbl !! k
    end.
Proof.
  revert tbl. induction l as [|[k0 f0] l IH]; intros tbl Hnd; simpl.
  - by rewrite lookup_empty.
  - apply NoDup_cons in Hnd as [Hnotin Hnd].
    rewrite IH by done.
    destruct (decide (k0 = k)) as [->|Hne].
    + rewrite lookup_insert_eq.
      rewrite (not_elem_of_list_to_map_1 _ _ Hnotin).
      by rewrite lookup_insert_eq.
    + rewrite !lookup_insert_ne by done. reflexivity.
Qed.

Lemma attach_all_run agent (w : World) :
  outcome_of (attach_all_to_agent agent w) = Ok tt
  /\ agent_table (state_of (attach_all_to_agent agent w)) agent
     = tools w ∪ agent_table w agent
  /\ events_of (attach_all_to_agent agent w) = [].
Proof.
  unfold attach_all_to_agent, bind, get.
  destruct (decide (map_to_list (tools w) = [])) as [Hnil|Hne].
  - rewrite Hnil. simpl. unfold outcome_of, state_of, events_of. simpl.
    apply map_to_list_empty_iff in Hnil. rewrite Hnil.
    repeat split. by rewrite (left_id_L ∅ (∪)).
  - rewrite attach_each_run by done.
    unfold outcome_of, state_of, events_of. simpl. repeat split.
    unfold agent_table at 1. simpl. rewrite lookup_insert_eq. simpl.
    apply map_eq. intros k.
    rewrite foldl_insert_lookup by apply NoDup_fst_map_to_list.
    rewrite list_to_map_to_list, lookup_union.
    destruct (tools w !! k), (agent_table w agent !! k); reflexivity.
Qed.

Lemma attach_all_other agent agent' (w : World) :
  agent' <> agent ->
  agent_table (state_of (attach_all_to_agent agent' w)) agent = agent_table w agent.
Proof.
  intros Hne.
  assert (keeps (fun w w' => agents w' !! agent = agents w !! agent)
                (attach_all_to_agent agent')) as Hk.
  { unfold attach_all_to_agent.
    apply keeps_bind; [congruence | by intros ???? [= <- <- <-] |].
    intros w0. apply keeps_for_each; [done | congruence |].
    intros kf ???? [= <- <- <-]. simpl. by rewrite lookup_insert_ne. }
  specialize (Hk w).
  destruct (attach_all_to_agent agent' w) as [[r w1] ev].
  unfold agent_table, state_of. simpl. by rewrite (Hk _ _ _ eq_refl).
Qed.

(** A call that is not [attach_all_to_agent(agent)] leaves the table of
    [agent] as it was. *)
Lemma run_op_keeps_table `{Runtime} (o : op) (agent : nat) (w : World) :
  is_attach agent o = false ->
  agent_table (state_of (run_op o w)) agent = agent_table w agent.
Proof.
  intros Hna. destruct o as [cfg|name|agent'|f args kwargs|self i]; simpl.
  - rewrite add_tool_run.
    destruct (dict_lookup "name" cfg) as [n|]; [|done].
    destruct (class_of cfg) as [c|]; [|done].
    destruct (start (BaseTool.init c n cfg)) as [[[[]|e|] t'] ev]; try done.
    destruct (to_key n) as [e|k]; done.
  - rewrite remove_tool_run.
    destruct (to_key name) as [e|k]; [done|].
    destruct (tool_instances w !! k) as [instance|]; [|done].
    pose proof (keeps_on_object instance stop w) as Hk.
    destruct (on_object instance stop w) as [[[[]|e|] w1] ev];
      destruct (Hk _ _ _ eq_refl) as (_ & _ & Ha);
      try destruct (tools w !! k);
      unfold agent_table, state_of; simpl; by rewrite Ha.
  - apply attach_all_other. simpl in Hna. by apply Nat.eqb_neq in Hna.
  - assert (keeps same_registry (call f args kwargs ;; ret tt)) as Hk.
    { apply keeps_bind; [exact same_registry_trans | apply keeps_call |].
      intros _. apply keeps_ret. exact same_registry_refl. }
    specialize (Hk w).
    destruct ((call f args kwargs ;; ret tt) w) as [[r w1] ev].
    destruct (Hk _ _ _ eq_refl) as (_ & _ & Ha).
    unfold agent_table, state_of. simpl. by rewrite Ha.
  - pose proof (keeps_health_tick self i w) as Hk.
    destruct (health_tick self i w) as [[r w1] ev].
    destruct (Hk _ _ _ eq_refl) as (_ & _ & Ha).
    unfold agent_table, state_of. simpl. by rewrite Ha.
Qed.

Lemma run_ops_keeps_table `{Runtime} (ops : list op) (agent : nat) (w : World) :
  forallb (fun o => negb (is_attach agent o)) ops = true ->
  agent_table (run_ops ops w) agent = agent_table w agent.
Proof.
  revert w. induction ops as [|o rest IH]; intros w Hall; [done|].
  simpl in Hall. apply andb_prop in Hall as [Ho Hrest].
  apply negb_true_iff in Ho.
  rewrite run_ops_step.
  pose proof (run_op_keeps_table o agent w Ho) as Hstep.
  destruct (outcome_of (run_op o w)); rewrite ?IH by done; done.
Qed.

(** C8: [attach_all_to_agent] returns normally and enters every pair of the
    visible mapping, as it stands at the call, into the table of the agent
    (what the table held under other names stays).  Nothing links the table
    to the registry afterwards: whatever calls follow ([add_tool],
    [remove_tool], invocations, steps of the health threads, attachments to
    other agents), the table of this agent stays what the attachment made
    it, until [attach_all_to_agent] is called for this agent again. *)
Theorem attach_all_copies_without_linkage `{Runtime} (w : World) (agent : nat)
    (ops : list op) :
  forallb (fun o => negb (is_attach agent o)) ops = true ->
  outcome_of (attach_all_to_agent agent w) = Ok tt
  /\ agent_table (state_of (attach_all_to_agent agent w)) agent
     = tools w ∪ agent_table w agent
  /\ (forall k f, tools w !! k = Some f ->
        agent_table (state_of (attach_all_to_agent agent w)) agent !! k = Some f)
  /\ agent_table (run_ops ops (state_of (attach_all_to_agent agent w))) agent
     = agent_table (state_of (attach_all_to_agent agent w)) agent.
Proof.
  intros Hops.
  destruct (attach_all_run agent w) as (Hr & Ht & _).
  repeat split; [done | done | | by apply run_ops_keeps_table].
  intros k f Hk. rewrite Ht. by apply lookup_union_Some_l.
Qed.

Lemma attach_all_copies_without_linkage_witness :
  outcome_of (attach_all_to_agent 0 (Lab.after_add Lab.cfg_playwright)) = Ok tt
  /\ agent_table (state_of (attach_all_to_agent 0 (Lab.after_add Lab.cfg_playwright))) 0
     = tools (Lab.after_add Lab.cfg_playwright)
       ∪ agent_table (Lab.after_add Lab.cfg_playwright) 0
  /\ (forall k f, tools (Lab.after_add Lab.cfg_playwright) !! k = Some f ->
        agent_table (state_of (attach_all_to_agent 0
                       (Lab.after_add Lab.cfg_playwright))) 0 !! k = Some f)
  /\ agent_table
       (@run_ops Lab.runtime
          [AddTool Lab.cfg_echo; RemoveTool (VStr "playwright"); AttachAll 1]
          (state_of (attach_all_to_agent 0 (Lab.after_add Lab.cfg_playwright)))) 0
     = agent_table (state_of (attach_all_to_agent 0
                      (Lab.after_add Lab.cfg_playwright))) 0.
Proof.
  exact (@attach_all_copies_without_linkage Lab.runtime
           (Lab.after_add Lab.cfg_playwright) 0%nat
           [AddTool Lab.cfg_echo; RemoveTool (VStr "playwright"); AttachAll 1]
           eq_refl).
Defined.

(** * Further properties of the code *)

(** ** The health loop *)

Module HealthFacts.
Import MCPClient.

(** A thread that has ended (or was never started) does nothing. *)
Lemma health_step_done `{Runtime} c :
  thread_done c = true -> health_step c = (Ok tt, c, []).
Proof.
  destruct c as [n h p tk pr cn [[[] iv]|] sh]; simpl; intros Hd; try done.
Qed.

Lemma health_steps_done `{Runtime} k c :
  thread_done c = true -> health_steps k c = (Ok tt, c, []).
Proof.
  intros Hd. induction k as [|k IH]; [done|].
  simpl. by rewrite (bind_Ok _ _ _ _ _ _ (health_step_done c Hd)), IH.
Qed.

End HealthFacts.

(** X1: while the stop flag is not set, one turn of the health loop (three
    steps of its thread, from wherever it stands) leaves the handle
    connected, whether it was connected or not, and the thread running on:
    the loop reconnects a handle within one turn.  This is so where
    [time.sleep] returns for the interval of the thread; where it raises,
    the thread ends there. *)
Theorem health_loop_reconnects `{Runtime} (c : MCPClient.t) (th : MCPClient.thread) :
  MCPClient._health_thread c = Some th ->
  MCPClient.th_pc th <> MCPClient.Finished ->
  sleep (MCPClient.th_interval th) = inr tt ->
  MCPClient._stop_health c = false ->
  outcome_of (MCPClient.health_steps 3 c) = Ok tt
  /\ MCPClient.connected (state_of (MCPClient.health_steps 3 c)) = true
  /\ MCPClient.thread_done (state_of (MCPClient.health_steps 3 c)) = false.
Proof.
  destruct c as [n h p tk pr cn [[pc iv]|] sh]; simpl; [|done].
  intros [= <-] Hpc Hs ->. simpl in Hs.
  destruct pc; try done; destruct cn;
    cbv -[sleep]; rewrite ?Hs; cbv -[sleep]; rewrite ?Hs; done.
Qed.

Lemma health_loop_reconnects_witness :
  MCPClient.connected monitored_idle_client = false
  /\ outcome_of (@MCPClient.health_steps Lab.runtime 3 monitored_idle_client) = Ok tt
  /\ MCPClient.connected (state_of (@MCPClient.health_steps Lab.runtime 3 monitored_idle_client))
     = true
  /\ MCPClient.thread_done (state_of (@MCPClient.health_steps Lab.runtime 3 monitored_idle_client))
     = false.
Proof.
  split; [reflexivity|].
  refine (@health_loop_reconnects Lab.runtime monitored_idle_client
            (MCPClient.Thread MCPClient.AtWhile (VInt 5)) eq_refl _ eq_refl eq_refl).
  discriminate.
Defined.

(** X2: once [disconnect] has returned, the health thread never touches the
    handle again: however many steps the scheduler grants it, the handle
    stays as [disconnect] left it and nothing is printed. *)
Theorem disconnect_is_final `{Runtime} (c : MCPClient.t) (k : nat) :
  MCPClient.health_steps k (state_of (MCPClient.disconnect c))
  = (Ok tt, state_of (MCPClient.disconnect c), []).
Proof.
  apply HealthFacts.health_steps_done.
  apply MCPClientFacts.disconnect_returns.
Qed.

(** X3: [disconnect] sets [_stop_health] and nothing ever clears it.  A
    health check started on a handle after its [disconnect] ends at the
    first test of its loop: it never looks at the handle, never reconnects
    it and prints nothing. *)
Theorem health_check_after_disconnect_ends_at_once `{Runtime} (c : MCPClient.t)
    (interval : pyval) (k : nat) :
  let c' := state_of (MCPClient.start_health_check interval
                        (state_of (MCPClient.disconnect c))) in
  MCPClient.health_steps (S k) c'
  = (Ok tt,
     MCPClient.set_health_thread
       (Some (MCPClient.Thread MCPClient.Finished interval)) c', []).
Proof.
  intros c'.
  destruct (MCPClientFacts.disconnect_returns c) as (_ & _ & Hstop).
  assert (MCPClient._stop_health c' = true) as Hs'.
  { subst c'. destruct (state_of (MCPClient.disconnect c)). exact Hstop. }
  assert (MCPClient._health_thread c'
          = Some (MCPClient.Thread MCPClient.AtWhile interval)) as Ht'.
  { subst c'. by destruct (state_of (MCPClient.disconnect c)). }
  assert (MCPClient.health_step c'
          = (Ok tt, MCPClient.set_health_thread
                      (Some (MCPClient.Thread MCPClient.Finished interval)) c', []))
    as Hstep.
  { destruct c' as [n h p tk pr cn thr sh]. simpl in Hs', Ht'. subst thr sh.
    reflexivity. }
  simpl. rewrite (bind_Ok _ _ _ _ _ _ Hstep).
  unfold outcome_of, state_of, events_of. simpl.
  rewrite HealthFacts.health_steps_done; [done|].
  by destruct c'.
Qed.

(** ** Rewriting a run step by step *)

#[local] Arguments bind : simpl never.

Lemma bind_get {S B} (k : S -> M S B) s : (x <- get ;; k x) s = k s s.
Proof. unfold bind, get. by destruct (k s s) as [[r s'] ev]. Qed.

Lemma bind_ret {S A B} (a : A) (k : A -> M S B) s : (x <- ret a ;; k x) s = k a s.
Proof. unfold bind, ret. by destruct (k a s) as [[r s'] ev]. Qed.

Lemma bind_lift_inr {S A B} (a : A) (k : A -> M S B) s :
  (x <- lift (inr a) ;; k x) s = k a s.
Proof. apply bind_ret. Qed.

Lemma bind_lift_inl {S A B} (e : exn) (k : A -> M S B) s :
  (x <- lift (inl e) ;; k x) s = (Raise e, s, []).
Proof. reflexivity. Qed.

Lemma bind_modify {S B} (f : S -> S) (k : unit -> M S B) s :
  (x <- modify f ;; k x) s = k tt (f s).
Proof. unfold bind, modify. by destruct (k tt (f s)) as [[r s'] ev]. Qed.

Lemma bind_emit {S B} (e : event) (k : unit -> M S B) s :
  (x <- emit e ;; k x) s
  = (outcome_of (k tt s), state_of (k tt s), e :: events_of (k tt s)).
Proof. unfold bind, emit. by destruct (k tt s) as [[r s'] ev]. Qed.

Lemma dict_has_get d k dflt :
  dict_has k d = true -> dict_index d k = inr (dict_get d k dflt).
Proof.
  unfold dict_has, dict_index, dict_get. by destruct (dict_lookup k d).
Qed.

Lemma attach_unfold (t : BaseTool.t) :
  BaseTool._attach_mcp_clients t =
    (self <- get ;;
     cfgs <- lift (py_iter (dict_get (BaseTool.config self) "mcp_clients" (VList []))) ;;
     for_each cfgs attach_entry) t.
Proof. reflexivity. Qed.

Lemma attach_entry_enabled (d : dict) (t : BaseTool.t) :
  enabled d = true -> entry_ok d = true ->
  attach_entry (VDict d) t =
    (Ok tt, BaseTool.set_mcp_clients (BaseTool.mcp_clients t ++ [client_of d]) t,
     [connecting d]).
Proof.
  intros Een Hd. unfold entry_ok in Hd. rewrite Een in Hd. simpl in Hd.
  apply andb_prop in Hd as [Hd Hp]. apply andb_prop in Hd as [Hn Hh].
  unfold attach_entry, enabled in *.
  unfold bind at 1. simpl. rewrite Een. simpl.
  rewrite (dict_has_get _ _ VNone Hn), (dict_has_get _ _ VNone Hh),
    (dict_has_get _ _ VNone Hp).
  reflexivity.
Qed.

Lemma attach_entry_disabled (d : dict) (t : BaseTool.t) :
  enabled d = false -> attach_entry (VDict d) t = (Ok tt, t, []).
Proof.
  intros Een. unfold attach_entry, enabled in *.
  unfold bind at 1. simpl. by rewrite Een.
Qed.

Lemma attach_entry_malformed (d : dict) (t : BaseTool.t) :
  entry_ok d = false ->
  exists key, attach_entry (VDict d) t = (Raise (KeyError (VStr key)), t, []).
Proof.
  intros Hbad. unfold entry_ok in Hbad. apply orb_false_iff in Hbad as [Hen Hkeys].
  apply negb_false_iff in Hen. unfold enabled in Hen.
  unfold attach_entry. unfold bind at 1. simpl. rewrite Hen. simpl.
  unfold dict_has, dict_index in *.
  destruct (dict_lookup "name" d); [|by exists "name"].
  destruct (dict_lookup "host" d); [|by exists "host"].
  destruct (dict_lookup "port" d); [done|by exists "port"].
Qed.

Lemma attach_loop (ds : list dict) (t : BaseTool.t) :
  forallb entry_ok ds = true ->
  for_each (map VDict ds) attach_entry t
  = (Ok tt,
     BaseTool.set_mcp_clients
       (BaseTool.mcp_clients t ++ map client_of (filter (fun d => enabled d = true) ds)) t,
     map connecting (filter (fun d => enabled d = true) ds)).
Proof.
  revert t. induction ds as [|d ds IH]; intros t Hok.
  - simpl. rewrite app_nil_r. by destruct t.
  - simpl in Hok. apply andb_prop in Hok as [Hd Hds].
    cbn [map for_each].
    destruct (enabled d) eqn:Een.
    + rewrite (bind_Ok _ _ _ _ _ _ (attach_entry_enabled d t Een Hd)).
      unfold outcome_of, state_of, events_of. cbn [fst snd].
      rewrite IH by done.
      rewrite filter_cons_True by done. cbn [fst snd map app].
      destruct t. simpl. by rewrite <- app_assoc.
    + rewrite (bind_Ok _ _ _ _ _ _ (attach_entry_disabled d t Een)).
      unfold outcome_of, state_of, events_of. cbn [fst snd].
      rewrite IH by done.
      rewrite filter_cons_False by (by rewrite Een). reflexivity.
Qed.

Lemma attach_enabled_run (t : BaseTool.t) (ds : list dict) :
  dict_get (BaseTool.config t) "mcp_clients" (VList []) = VList (map VDict ds) ->
  forallb entry_ok ds = true ->
  BaseTool._attach_mcp_clients t
  = (Ok tt,
     BaseTool.set_mcp_clients
       (BaseTool.mcp_clients t ++ map client_of (filter (fun d => enabled d = true) ds)) t,
     map connecting (filter (fun d => enabled d = true) ds)).
Proof.
  intros Hcfg Hok. rewrite attach_unfold.
  unfold bind at 1. simpl. rewrite Hcfg. simpl.
  unfold bind at 1. simpl.
  rewrite (attach_loop ds t Hok). reflexivity.
Qed.



Lemma for_each_app {S A} (l1 l2 : list A) (body : A -> M S unit) s :
  for_each (l1 ++ l2) body s = (for_each l1 body ;; for_each l2 body) s.
Proof.
  revert s. induction l1 as [|x l1 IH]; intros s; simpl.
  - unfold bind, ret. simpl. by destruct (for_each l2 body s) as [[r s'] ev].
  - unfold bind. destruct (body x s) as [[[[]|e|] s1] ev1]; [|done|done].
    rewrite IH. unfold bind.
    destruct (for_each l1 body s1) as [[[[]|e|] s3] ev3]; [|done|done].
    destruct (for_each l2 body s3) as [[r4 s4] ev4].
    by rewrite app_assoc.
Qed.

Lemma attach_absent_run (t : BaseTool.t) :
  dict_lookup "mcp_clients" (BaseTool.config t) = None ->
  BaseTool._attach_mcp_clients t = (Ok tt, t, []).
Proof.
  intros Hcfg. unfold BaseTool._attach_mcp_clients, bind, get, dict_get.
  simpl. by rewrite Hcfg.
Qed.

Lemma attach_aborts_run (t : BaseTool.t) (ds1 ds2 : list dict) (d : dict) :
  dict_lookup "mcp_clients" (BaseTool.config t)
    = Some (VList (map VDict (ds1 ++ d :: ds2))) ->
  forallb entry_ok ds1 = true ->
  entry_ok d = false ->
  exists key,
    BaseTool._attach_mcp_clients t
    = (Raise (KeyError (VStr key)),
       BaseTool.set_mcp_clients
         (BaseTool.mcp_clients t
            ++ map client_of (filter (fun d => enabled d = true) ds1)) t,
       map connecting (filter (fun d => enabled d = true) ds1)).
Proof.
  intros Hcfg Hok Hbad. rewrite attach_unfold.
  unfold bind at 1. simpl. unfold dict_get. rewrite Hcfg. simpl.
  unfold bind at 1. simpl.
  rewrite map_app, for_each_app.
  rewrite (bind_Ok _ _ _ _ _ _ (attach_loop ds1 t Hok)).
  unfold outcome_of, state_of, events_of. cbn [fst snd map for_each].
  set (t1 := BaseTool.set_mcp_clients _ t).
  destruct (attach_entry_malformed d t1 Hbad) as [key Hkey].
  exists key. rewrite (bind_Raise _ _ _ _ _ _ Hkey). cbn [fst snd].
  by rewrite app_nil_r.
Qed.

Lemma health_checks_run (t : BaseTool.t) :
  health_check_ok (BaseTool.config t) = true ->
  BaseTool._start_health_checks t
  = (Ok tt,
     BaseTool.set_mcp_clients
       (map (monitored (interval_of (BaseTool.config t))) (BaseTool.mcp_clients t)) t,
     map (fun c => SysThreadStart (MCPClient.name c)) (BaseTool.mcp_clients t)).
Proof.
  intros Hok. unfold BaseTool._start_health_checks.
  unfold bind at 1. simpl.
  assert (py_get (dict_get (BaseTool.config t) "health_check" (VDict []))
                 "interval" (VInt 10) = inr (interval_of (BaseTool.config t))) as Hi.
  { unfold health_check_ok in Hok. unfold interval_of, dict_get.
    destruct (dict_lookup "health_check" (BaseTool.config t)) as [[]|]; done. }
  rewrite Hi. unfold bind, lift, ret. simpl.
  unfold BaseTool.on_clients.
  rewrite on_each_total by done.
  f_equal.
Qed.

Lemma health_checks_not_a_dict (t : BaseTool.t) :
  health_check_ok (BaseTool.config t) = false ->
  BaseTool._start_health_checks t = (Raise (AttributeError "get"), t, []).
Proof.
  intros Hok. unfold BaseTool._start_health_checks.
  unfold bind at 1. simpl.
  unfold health_check_ok in Hok. unfold dict_get.
  destruct (dict_lookup "health_check" (BaseTool.config t)) as [[]|]; done.
Qed.

(** Starting the handles of a tool that has none yet, and going on. *)
Lemma attach_then_check {A} (k : M BaseTool.t A) (t : BaseTool.t) (ds : list dict) :
  BaseTool.mcp_clients t = [] ->
  dict_get (BaseTool.config t) "mcp_clients" (VList []) = VList (map VDict ds) ->
  forallb entry_ok ds = true ->
  health_check_ok (BaseTool.config t) = true ->
  let t' := BaseTool.set_mcp_clients (started_clients (BaseTool.config t) ds) t in
  (BaseTool._attach_mcp_clients ;; BaseTool._start_health_checks ;; k) t
  = (outcome_of (k t'), state_of (k t'), started_events ds ++ events_of (k t')).
Proof.
  intros Hnone Hcfg Hok Hhc t'.
  rewrite (bind_Ok _ _ _ _ _ _ (attach_enabled_run t ds Hcfg Hok)).
  unfold outcome_of at 1, state_of at 1, events_of at 1. cbn [fst snd].
  set (t1 := BaseTool.set_mcp_clients _ t).
  assert (health_check_ok (BaseTool.config t1) = true) as Hhc1 by (by destruct t).
  rewrite (bind_Ok _ _ _ _ _ _ (health_checks_run t1 Hhc1)).
  assert (BaseTool.set_mcp_clients
            (map (monitored (interval_of (BaseTool.config t1)))
                 (BaseTool.mcp_clients t1)) t1 = t') as ->.
  { subst t1 t'. destruct t as [c n cfg cs p f]. simpl in *. subst cs.
    unfold BaseTool.set_mcp_clients, started_clients. simpl.
    by rewrite map_map. }
  assert (map (fun c => SysThreadStart (MCPClient.name c)) (BaseTool.mcp_clients t1)
          = map (fun d => SysThreadStart (dict_get d "name" VNone))
                (filter (fun d => enabled d = true) ds)) as ->.
  { subst t1. destruct t as [c n cfg cs p f]. simpl in *. subst cs. simpl.
    by rewrite map_map. }
  unfold outcome_of, state_of, events_of, started_events. cbn [fst snd].
  by rewrite !app_assoc.
Qed.

Lemma function_start_run `{Runtime} (t : BaseTool.t) (ds : list dict)
    (m fn : pyval) (mod_ : nat) (f : callable) :
  BaseTool.mcp_clients t = [] ->
  dict_lookup "module" (BaseTool.config t) = Some m ->
  import_module m = inr mod_ ->
  dict_lookup "function" (BaseTool.config t) = Some fn ->
  getattr mod_ fn = inr f ->
  dict_get (BaseTool.config t) "mcp_clients" (VList []) = VList (map VDict ds) ->
  forallb entry_ok ds = true ->
  health_check_ok (BaseTool.config t) = true ->
  InternalFunctionTool.start t
  = (Ok tt,
     BaseTool.set_mcp_clients (started_clients (BaseTool.config t) ds)
       (BaseTool.set_function (Some f) t),
     started_events ds ++ [LogReady InternalFunctionToolC (BaseTool.name t)]).
Proof.
  intros Hnone Hm Him Hfn Hga Hcfg Hok Hhc.
  unfold InternalFunctionTool.start, dict_index.
  rewrite bind_get, Hm, bind_lift_inr, Him, bind_lift_inr, Hfn, bind_lift_inr,
    Hga, bind_lift_inr, bind_modify.
  set (t0 := BaseTool.set_function (Some f) t).
  rewrite (attach_then_check _ t0 ds) by (by destruct t).
  by destruct t.
Qed.

Lemma function_start_unresolved_run `{Runtime} (t : BaseTool.t) (m : pyval) (e : exn) :
  dict_lookup "module" (BaseTool.config t) = Some m ->
  (import_module m = inl e
   \/ exists mod_ fn, import_module m = inr mod_
        /\ dict_lookup "function" (BaseTool.config t) = Some fn
        /\ getattr mod_ fn = inl e) ->
  InternalFunctionTool.start t = (Raise e, t, []).
Proof.
  intros Hm Hres.
  unfold InternalFunctionTool.start, dict_index.
  rewrite bind_get, Hm, bind_lift_inr.
  destruct Hres as [Him|(mod_ & fn & Him & Hfn & Hga)]; rewrite Him.
  - reflexivity.
  - by rewrite bind_lift_inr, Hfn, bind_lift_inr, Hga.
Qed.

Lemma launch_block `{Runtime} (t : BaseTool.t) (cmd : pyval) (line : string) (p : proc) :
  str_join " " cmd = inr line ->
  popen cmd = inr p ->
  (cmdline <- lift (str_join " " cmd) ;;
   emit (LogStartingProcess (BaseTool.name t) cmdline) ;;
   p <- lift (popen cmd) ;;
   emit (SysPopen cmd p) ;;
   modify (BaseTool.set_process (Some p))) (BaseTool.set_process None t)
  = (Ok tt, BaseTool.set_process (Some p) t,
     [LogStartingProcess (BaseTool.name t) line; SysPopen cmd p]).
Proof.
  intros Hj Hp.
  rewrite Hj, bind_lift_inr, bind_emit, Hp, bind_lift_inr, bind_emit.
  unfold modify, outcome_of, state_of, events_of. simpl. by destruct t.
Qed.

Lemma mcp_start_run `{Runtime} (t : BaseTool.t) (ds : list dict)
    (cmd : pyval) (line : string) (p : proc) :
  BaseTool.mcp_clients t = [] ->
  dict_get (BaseTool.config t) "command" (VList []) = cmd ->
  truthy cmd = true ->
  str_join " " cmd = inr line ->
  popen cmd = inr p ->
  dict_get (BaseTool.config t) "mcp_clients" (VList []) = VList (map VDict ds) ->
  forallb entry_ok ds = true ->
  health_check_ok (BaseTool.config t) = true ->
  MCPBasedTool.start t
  = (Ok tt,
     BaseTool.set_mcp_clients (started_clients (BaseTool.config t) ds)
       (BaseTool.set_process (Some p) t),
     [LogStartingProcess (BaseTool.name t) line; SysPopen cmd p]
     ++ started_events ds ++ [LogReady MCPBasedToolC (BaseTool.name t)]).
Proof.
  intros Hnone Hcmd Ht Hj Hp Hcfg Hok Hhc.
  unfold MCPBasedTool.start.
  rewrite bind_get. cbv zeta. rewrite Hcmd, bind_modify, Ht.
  rewrite (bind_Ok _ _ _ _ _ _ (launch_block t cmd line p Hj Hp)).
  set (t0 := BaseTool.set_process (Some p) t).
  rewrite (attach_then_check _ t0 ds) by (by destruct t).
  by destruct t.
Qed.

Lemma mcp_start_without_command_run `{Runtime} (t : BaseTool.t) (ds : list dict) :
  BaseTool.mcp_clients t = [] ->
  truthy (dict_get (BaseTool.config t) "command" (VList [])) = false ->
  dict_get (BaseTool.config t) "mcp_clients" (VList []) = VList (map VDict ds) ->
  forallb entry_ok ds = true ->
  health_check_ok (BaseTool.config t) = true ->
  MCPBasedTool.start t
  = (Ok tt,
     BaseTool.set_mcp_clients (started_clients (BaseTool.config t) ds)
       (BaseTool.set_process None t),
     started_events ds ++ [LogReady MCPBasedToolC (BaseTool.name t)]).
Proof.
  intros Hnone Ht Hcfg Hok Hhc.
  unfold MCPBasedTool.start.
  rewrite bind_get. cbv zeta. rewrite bind_modify, Ht, bind_ret.
  set (t0 := BaseTool.set_process None t).
  rewrite (attach_then_check _ t0 ds) by (by destruct t).
  by destruct t.
Qed.

Lemma mcp_start_unlaunchable_run `{Runtime} (t : BaseTool.t)
    (cmd : pyval) (line : string) (e : exn) :
  dict_get (BaseTool.config t) "command" (VList []) = cmd ->
  truthy cmd = true ->
  str_join " " cmd = inr line ->
  popen cmd = inl e ->
  MCPBasedTool.start t
  = (Raise e, BaseTool.set_process None t,
     [LogStartingProcess (BaseTool.name t) line]).
Proof.
  intros Hcmd Ht Hj Hp.
  unfold MCPBasedTool.start.
  rewrite bind_get. cbv zeta. rewrite Hcmd, bind_modify, Ht.
  erewrite bind_Raise; [reflexivity|].
  rewrite Hj, bind_lift_inr, bind_emit, Hp, bind_lift_inl. reflexivity.
Qed.

Lemma mcp_start_leaves_process_run `{Runtime} (t : BaseTool.t)
    (ds1 ds2 : list dict) (d : dict) (cmd : pyval) (line : string) (p : proc) :
  dict_get (BaseTool.config t) "command" (VList []) = cmd ->
  truthy cmd = true ->
  str_join " " cmd = inr line ->
  popen cmd = inr p ->
  dict_lookup "mcp_clients" (BaseTool.config t)
    = Some (VList (map VDict (ds1 ++ d :: ds2))) ->
  forallb entry_ok ds1 = true ->
  entry_ok d = false ->
  exists key,
    MCPBasedTool.start t
    = (Raise (KeyError (VStr key)),
       BaseTool.set_mcp_clients
         (BaseTool.mcp_clients t
            ++ map client_of (filter (fun d => enabled d = true) ds1))
         (BaseTool.set_process (Some p) t),
       [LogStartingProcess (BaseTool.name t) line; SysPopen cmd p]
       ++ map connecting (filter (fun d => enabled d = true) ds1)).
Proof.
  intros Hcmd Ht Hj Hp Hcfg Hok Hbad.
  unfold MCPBasedTool.start.
  rewrite bind_get. cbv zeta. rewrite Hcmd, bind_modify, Ht.
  rewrite (bind_Ok _ _ _ _ _ _ (launch_block t cmd line p Hj Hp)).
  set (t0 := BaseTool.set_process (Some p) t).
  destruct (attach_aborts_run t0 ds1 ds2 d) as [key Hkey];
    [by destruct t | done | done |].
  exists key. rewrite (bind_Raise _ _ _ _ _ _ Hkey).
  unfold outcome_of, state_of, events_of. cbn [fst snd].
  by destruct t.
Qed.

(** ** Calls of the registry, taken apart *)

Lemma mcp_invoke_run `{Runtime} (w : World) (self : nat) (t : BaseTool.t)
    (action payload : pyval) :
  heap w !! self = Some t ->
  call (Closure MCPBasedToolC self) [action; payload] [] w
  = (Ok (MCPBasedTool.ack (BaseTool.name t) action), w,
     sent (VDict [("action", action);
                  ("payload", if truthy payload then payload else VDict [])])
          (BaseTool.mcp_clients t))
  /\ call (Closure MCPBasedToolC self) [action] [] w
     = (Ok (MCPBasedTool.ack (BaseTool.name t) action), w,
        sent (VDict [("action", action); ("payload", VDict [])])
             (BaseTool.mcp_clients t)).
Proof.
  intros Hself.
  assert (forall pl, on_object self (MCPBasedTool.tool action pl) w
    = (Ok (MCPBasedTool.ack (BaseTool.name t) action), w,
       sent (VDict [("action", action);
                    ("payload", if truthy pl then pl else VDict [])])
            (BaseTool.mcp_clients t))) as Hrun.
  { intros pl. apply on_object_same with (t := t); [done|].
    unfold MCPBasedTool.tool.
    rewrite (bind_Ok _ _ _ _ _ _ (on_clients_send _ t)).
    unfold outcome_of, state_of, events_of. cbn [fst snd].
    rewrite bind_get. unfold ret. cbn [fst snd]. by rewrite app_nil_r. }
  split.
  - unfold call, MCPBasedTool.bind_params. simpl. rewrite bind_ret. apply Hrun.
  - unfold call, MCPBasedTool.bind_params. simpl. rewrite bind_ret.
    apply (Hrun VNone).
Qed.


Lemma mcp_tool_stop_run `{Runtime} (t : BaseTool.t) (p : proc) :
  BaseTool.process t = Some p ->
  MCPBasedTool.stop t =
    match terminate p with
    | inr _ =>
        (Ok tt,
         BaseTool.set_mcp_clients
           (map (fun c => state_of (MCPClient.disconnect c))
                (BaseTool.mcp_clients t)) t,
         flat_map (fun c => events_of (MCPClient.disconnect c))
                  (BaseTool.mcp_clients t)
         ++ [SysTerminate p; LogStopped MCPBasedToolC (BaseTool.name t)])
    | inl e =>
        (Raise e,
         BaseTool.set_mcp_clients
           (map (fun c => state_of (MCPClient.disconnect c))
                (BaseTool.mcp_clients t)) t,
         flat_map (fun c => events_of (MCPClient.disconnect c))
                  (BaseTool.mcp_clients t)
         ++ [SysTerminate p])
    end.
Proof.
  intros Hp. unfold MCPBasedTool.stop.
  rewrite (bind_Ok _ _ _ _ _ _ (base_stop_run t)).
  unfold outcome_of at 1, state_of at 1, events_of at 1. cbn [fst snd].
  set (t1 := BaseTool.set_mcp_clients _ t).
  rewrite bind_get.
  assert (BaseTool.process t1 = Some p) as -> by (by destruct t).
  assert (BaseTool.name t1 = BaseTool.name t) as -> by (by destruct t).
  destruct (terminate p) as [e|[]].
  - unfold bind, emit, lift, raise, outcome_of, state_of, events_of. reflexivity.
  - unfold bind, emit, lift, ret, outcome_of, state_of, events_of. reflexivity.
Qed.

(** What [add_tool] has done when it returns. *)
Lemma add_tool_inv `{Runtime} (cfg : dict) (w w' : World)
    (ev : list event) :
  add_tool cfg w = (Ok tt, w', ev) ->
  exists n k c t',
    dict_lookup "name" cfg = Some n /\ to_key n = inr k /\ class_of cfg = Some c
    /\ start (BaseTool.init c n cfg) = (Ok tt, t', removelast ev)
    /\ tool_instances w' = <[k := next_id w]> (tool_instances w)
    /\ tools w' = <[k := Closure c (next_id w)]> (tools w)
    /\ heap w' = <[next_id w := t']> (heap w)
    /\ next_id w' = S (next_id w)
    /\ agents w' = agents w.
Proof.
  rewrite add_tool_run.
  destruct (dict_lookup "name" cfg) as [n|]; [|done].
  destruct (class_of cfg) as [c|]; [|done].
  destruct (start (BaseTool.init c n cfg)) as [[[[]|e|] t'] ev0] eqn:Est; try done.
  destruct (to_key n) as [e|k] eqn:Ek; [done|].
  intros [= <- <-]. exists n, k, c, t'.
  rewrite removelast_last. repeat split; done.
Qed.

(** Removing a registered tool. *)
Lemma remove_tool_registered `{Runtime} (name : pyval) (k : pykey) (w : World)
    (id : nat) (t : BaseTool.t) (f : Invocable) :
  to_key name = inr k ->
  tool_instances w !! k = Some id ->
  tools w !! k = Some f ->
  heap w !! id = Some t ->
  remove_tool name w =
    match stop t with
    | (Ok _, t', ev) =>
        (Ok tt, unregistered k (set_heap (<[id := t']> (heap w)) w),
         ev ++ [LogRemoved name])
    | (Raise e, t', ev) => (Raise e, set_heap (<[id := t']> (heap w)) w, ev)
    | (Hang, t', ev) => (Hang, set_heap (<[id := t']> (heap w)) w, ev)
    end.
Proof.
  intros Ek Hi Hf Ht. rewrite remove_tool_run, Ek, Hi.
  rewrite (on_object_run id stop w t Ht).
  destruct (stop t) as [[[[]|e|] t'] ev]; unfold outcome_of, state_of, events_of;
    cbn [fst snd]; rewrite ?Hf; reflexivity.
Qed.



(** A tool whose [stop] raises stays registered. *)
Lemma remove_failed_stop_run `{Runtime} (name : pyval) (k : pykey)
    (w : World) (id : nat) (t : BaseTool.t) (f : Invocable) (p : proc) (e : exn) :
  to_key name = inr k ->
  tool_instances w !! k = Some id ->
  tools w !! k = Some f ->
  heap w !! id = Some t ->
  BaseTool.cls t = MCPBasedToolC ->
  BaseTool.process t = Some p ->
  terminate p = inl e ->
  outcome_of (remove_tool name w) = Raise e
  /\ tool_instances (state_of (remove_tool name w)) = tool_instances w
  /\ tools (state_of (remove_tool name w)) = tools w
  /\ heap (state_of (remove_tool name w)) !! id
     = Some (BaseTool.set_mcp_clients
               (map (fun c => state_of (MCPClient.disconnect c))
                    (BaseTool.mcp_clients t)) t).
Proof.
  intros Ek Hi Hf Ht Hcls Hp He.
  rewrite (remove_tool_registered name k w id t f Ek Hi Hf Ht).
  assert (stop t = MCPBasedTool.stop t) as ->.
  { unfold stop. rewrite bind_get. by rewrite Hcls. }
  rewrite (mcp_tool_stop_run t p Hp), He.
  unfold outcome_of, state_of. cbn [fst snd]. repeat split.
  simpl. apply lookup_insert_eq.
Qed.

(** Adding a tool under a free name and removing it again. *)
Lemma add_then_remove_run `{Runtime} (cfg : dict) (n : pyval)
    (k : pykey) (w w1 w2 : World) (ev1 ev2 : list event) :
  dict_lookup "name" cfg = Some n ->
  to_key n = inr k ->
  tool_instances w !! k = None ->
  tools w !! k = None ->
  add_tool cfg w = (Ok tt, w1, ev1) ->
  remove_tool n w1 = (Ok tt, w2, ev2) ->
  tool_instances w2 = tool_instances w
  /\ tools w2 = tools w
  /\ agents w2 = agents w
  /\ next_id w2 = S (next_id w).
Proof.
  intros Hn Hk Hi Ht Hadd Hrem.
  destruct (add_tool_inv cfg w w1 ev1 Hadd)
    as (n' & k' & c & t' & Hn' & Hk' & _ & _ & Hi1 & Ht1 & Hh1 & Hid1 & Ha1).
  rewrite Hn in Hn'. injection Hn' as <-. rewrite Hk in Hk'. injection Hk' as <-.
  rewrite remove_tool_run, Hk, Hi1, lookup_insert_eq in Hrem.
  pose proof (keeps_on_object (next_id w) stop w1) as Hkeep.
  destruct (on_object (next_id w) stop w1) as [[[[]|e|] w1'] ev] eqn:Eo; try done.
  destruct (Hkeep _ _ _ eq_refl) as (Hi' & Ht' & Ha').
  assert (next_id w1' = next_id w1) as Hid'.
  { unfold on_object in Eo. destruct (heap w1 !! next_id w) as [t0|]; [|done].
    destruct (stop t0) as [[r0 t1] ev0]. by injection Eo as _ <- _. }
  rewrite Ht1, lookup_insert_eq in Hrem. injection Hrem as <- _.
  unfold unregistered. simpl. rewrite Hi', Ht', Ha', Hid', Hi1, Ht1, Ha1, Hid1.
  rewrite !delete_insert_id by done. done.
Qed.

(** An invocable outlives the registration of its tool. *)
Lemma removed_tool_call_run `{Runtime} (name : pyval) (k : pykey)
    (w w' : World) (id : nat) (t : BaseTool.t) (ev : list event)
    (action payload : pyval) :
  to_key name = inr k ->
  tool_instances w !! k = Some id ->
  tools w !! k = Some (Closure MCPBasedToolC id) ->
  heap w !! id = Some t ->
  remove_tool name w = (Ok tt, w', ev) ->
  tools w' !! k = None
  /\ outcome_of (call (Closure MCPBasedToolC id) [action; payload] [] w')
     = Ok (MCPBasedTool.ack (BaseTool.name t) action)
  /\ state_of (call (Closure MCPBasedToolC id) [action; payload] [] w') = w'.
Proof.
  intros Ek Hi Hf Ht Hrem.
  rewrite remove_tool_run, Ek, Hi in Hrem.
  rewrite (on_object_run id stop w t Ht) in Hrem.
  pose proof (keeps_stop t) as Hk.
  destruct (stop t) as [[[[]|e|] t'] ev0]; unfold outcome_of, state_of, events_of in Hrem;
    cbn [fst snd] in Hrem; try done.
  destruct (Hk _ _ _ eq_refl) as (_ & Hname & _).
  destruct (tools w !! k); [|done]. injection Hrem as <- _.
  assert (heap (unregistered k (set_heap (<[id:=t']> (heap w)) w)) !! id = Some t')
    as Hheap by (simpl; apply lookup_insert_eq).
  destruct (mcp_invoke_run _ id t' action payload Hheap) as [Hcall _].
  rewrite Hcall. unfold outcome_of, state_of. cbn [fst snd].
  rewrite Hname. repeat split. simpl. apply lookup_delete_eq.
Qed.

(** ** setup *)

Lemma bind_ext {S A B} (m m' : M S A) (k k' : A -> M S B) s :
  (forall s, m s = m' s) -> (forall a s, k a s = k' a s) ->
  bind m k s = bind m' k' s.
Proof.
  intros Hm Hk. unfold bind. rewrite Hm.
  destruct (m' s) as [[[a|e|] s1] ev1]; [|done|done]. by rewrite Hk.
Qed.

Lemma setup_unfold `{Runtime} (ds : list dict) (w : World) :
  setup (VDict [("tools", VList (map VDict ds))]) w = for_each ds add_tool w.
Proof.
  unfold setup, py_get. rewrite bind_lift_inr.
  change (dict_get [("tools", VList (map VDict ds))] "tools" (VList []))
    with (VList (map VDict ds)).
  unfold py_iter. rewrite bind_lift_inr.
  revert w. induction ds as [|d ds IH]; intros w; [done|].
  cbn [map for_each as_dict].
  apply bind_ext; [intros s; apply bind_lift_inr | intros _ s; apply IH].
Qed.

Lemma setup_failure_run `{Runtime} (ds1 ds2 : list dict) (d : dict)
    (w w1 w2 : World) (ev1 ev2 : list event) (e : exn) :
  for_each ds1 add_tool w = (Ok tt, w1, ev1) ->
  add_tool d w1 = (Raise e, w2, ev2) ->
  setup (VDict [("tools", VList (map VDict (ds1 ++ d :: ds2)))]) w
  = (Raise e, w2, ev1 ++ ev2)
  /\ tool_instances w2 = tool_instances w1
  /\ tools w2 = tools w1.
Proof.
  intros H1 Hd. rewrite setup_unfold, for_each_app.
  rewrite (bind_Ok _ _ _ _ _ _ H1). cbn [for_each].
  rewrite (bind_Raise _ _ _ _ _ _ Hd).
  unfold outcome_of, state_of, events_of. cbn [fst snd]. split; [done|].
  rewrite add_tool_run in Hd.
  destruct (dict_lookup "name" d) as [n|]; [|by injection Hd as _ <- _].
  destruct (class_of d) as [c|]; [|by injection Hd as _ <- _].
  destruct (start (BaseTool.init c n d)) as [[[[]|e0|] t'] ev0]; try done.
  - destruct (to_key n) as [e0|k]; [|done]. by injection Hd as _ <- _.
  - by injection Hd as _ <- _.
Qed.

Lemma setup_without_tools `{Runtime} (doc : dict) (w : World) :
  dict_lookup "tools" doc = None ->
  setup (VDict doc) w = (Ok tt, w, []).
Proof.
  intros Hd. unfold setup, py_get, dict_get. by rewrite Hd.
Qed.

(** ** A process that is launched and never terminated *)

Lemma add_tool_leak_run `{Runtime} (cfg : dict) (w : World)
    (n cmd : pyval) (line : string) (p : proc)
    (ds1 ds2 : list dict) (d : dict) :
  dict_lookup "name" cfg = Some n ->
  dict_lookup "command" cfg = Some cmd ->
  truthy cmd = true ->
  str_join " " cmd = inr line ->
  popen cmd = inr p ->
  dict_lookup "mcp_clients" cfg = Some (VList (map VDict (ds1 ++ d :: ds2))) ->
  forallb entry_ok ds1 = true ->
  entry_ok d = false ->
  exists key t',
    add_tool cfg w
    = (Raise (KeyError (VStr key)), allocated t' w,
       [LogStartingProcess n line; SysPopen cmd p]
       ++ map connecting (filter (fun d => enabled d = true) ds1))
    /\ BaseTool.process t' = Some p
    /\ tool_instances (allocated t' w) = tool_instances w
    /\ tools (allocated t' w) = tools w.
Proof.
  intros Hn Hcmd Ht Hj Hp Hcfg Hok Hbad.
  assert (class_of cfg = Some MCPBasedToolC) as Hc.
  { unfold class_of, dict_has. by rewrite Hcmd. }
  destruct (mcp_start_leaves_process_run (BaseTool.init MCPBasedToolC n cfg)
              ds1 ds2 d cmd line p) as [key Hst]; try done.
  { simpl. unfold dict_get. by rewrite Hcmd. }
  exists key. eexists.
  rewrite add_tool_run, Hn, Hc.
  assert (start (BaseTool.init MCPBasedToolC n cfg)
          = MCPBasedTool.start (BaseTool.init MCPBasedToolC n cfg)) as ->.
  { unfold start. by rewrite bind_get. }
  rewrite Hst. split; [reflexivity|]. done.
Qed.

(** ** The registry stays in good order *)

Lemma on_object_ok {A} self (m : M BaseTool.t A) w :
  keeps same_tool m -> registry_ok w -> registry_ok (state_of (on_object self m w)).
Proof.
  intros Hm (Hd & Hreg & Hids). unfold on_object, state_of.
  destruct (heap w !! self) as [t|] eqn:Eself; [|done].
  specialize (Hm t). destruct (m t) as [[r t'] ev].
  destruct (Hm _ _ _ eq_refl) as (Hcls & _ & _). simpl.
  repeat split; simpl.
  - done.
  - intros k id Hk. destruct (Hreg k id Hk) as (t0 & Ht0 & Hf).
    destruct (decide (id = self)) as [->|Hne].
    + exists t'. rewrite lookup_insert_eq. split; [done|].
      rewrite Hcls. congruence.
    + exists t0. by rewrite lookup_insert_ne.
  - intros id t0. destruct (decide (id = self)) as [->|Hne].
    + intros _. by apply (Hids self t).
    + rewrite lookup_insert_ne by done. apply Hids.
Qed.

Lemma allocated_ok t w : registry_ok w -> registry_ok (allocated t w).
Proof.
  intros (Hd & Hreg & Hids). repeat split; simpl.
  - done.
  - intros k id Hk. destruct (Hreg k id Hk) as (t0 & Ht0 & Hf).
    exists t0. split; [|done].
    rewrite lookup_insert_ne; [done|]. apply Hids in Ht0. lia.
  - intros id t0. destruct (decide (id = next_id w)) as [->|Hne].
    + intros _. lia.
    + rewrite lookup_insert_ne by done. intros Hl. apply Hids in Hl. lia.
Qed.

Lemma registered_ok k t w :
  registry_ok w ->
  registry_ok (registered k (BaseTool.cls t) (next_id w) (allocated t w)).
Proof.
  intros Hok. pose proof (allocated_ok t w Hok) as (Hd & Hreg & Hids).
  repeat split; simpl in *.
  - rewrite !dom_insert_L. by rewrite Hd.
  - intros k' id. destruct (decide (k' = k)) as [->|Hne].
    + rewrite lookup_insert_eq. intros [= <-]. exists t.
      by rewrite !lookup_insert_eq.
    + rewrite lookup_insert_ne by done. intros Hk.
      destruct (Hreg k' id Hk) as (t0 & Ht0 & Hf). exists t0.
      split; [exact Ht0 | by rewrite lookup_insert_ne].
  - apply Hids.
Qed.

Lemma unregistered_ok k w : registry_ok w -> registry_ok (unregistered k w).
Proof.
  intros (Hd & Hreg & Hids). repeat split; simpl.
  - rewrite !dom_delete_L. by rewrite Hd.
  - intros k' id. destruct (decide (k' = k)) as [->|Hne].
    + by rewrite lookup_delete_eq.
    + rewrite lookup_delete_ne by done. intros Hk.
      destruct (Hreg k' id Hk) as (t0 & Ht0 & Hf). exists t0.
      split; [exact Ht0 | by rewrite lookup_delete_ne].
  - apply Hids.
Qed.

Lemma keeps_function_tool `{Runtime} args kwargs :
  keeps same_tool (InternalFunctionTool.tool args kwargs).
Proof.
  unfold InternalFunctionTool.tool.
  keeps_tac same_tool_refl same_tool_trans; apply keeps_on_clients.
Qed.

Lemma keeps_mcp_tool `{Runtime} action payload :
  keeps same_tool (MCPBasedTool.tool action payload).
Proof.
  unfold MCPBasedTool.tool.
  keeps_tac same_tool_refl same_tool_trans; apply keeps_on_clients.
Qed.

Lemma run_op_ok `{Runtime} (o : op) (w : World) :
  registry_ok w -> registry_ok (state_of (run_op o w)).
Proof.
  intros Hok. destruct o as [cfg|name|agent|f args kwargs|self i]; simpl.
  - rewrite add_tool_run.
    destruct (dict_lookup "name" cfg) as [n|]; [|done].
    destruct (class_of cfg) as [c|]; [|done].
    pose proof (keeps_start (BaseTool.init c n cfg)) as Hk.
    destruct (start (BaseTool.init c n cfg)) as [[[[]|e|] t'] ev];
      destruct (Hk _ _ _ eq_refl) as (Hcls & _ & _); simpl in Hcls;
      try (by apply allocated_ok).
    destruct (to_key n) as [e|k]; [by apply allocated_ok|].
    unfold state_of. simpl. rewrite <- Hcls. by apply registered_ok.
  - rewrite remove_tool_run.
    destruct (to_key name) as [e|k]; [done|].
    destruct (tool_instances w !! k) as [instance|] eqn:Ei; [|done].
    pose proof (on_object_ok instance stop w keeps_stop Hok) as Hok1.
    pose proof (keeps_on_object instance stop w) as Hk.
    destruct (on_object instance stop w) as [[[[]|e|] w1] ev];
      destruct (Hk _ _ _ eq_refl) as (Hi & Ht & _); unfold state_of in *;
      simpl in *; try done.
    destruct (tools w !! k) eqn:Et; simpl.
    + by apply unregistered_ok.
    + exfalso. destruct Hok as (Hd & _ & _).
      apply (not_elem_of_dom (tools w) k) in Et. apply Et.
      rewrite <- Hd. apply elem_of_dom. eauto.
  - pose proof (keeps_attach_all agent w) as Hk.
    destruct (attach_all_to_agent agent w) as [[r w1] ev].
    destruct (Hk _ _ _ eq_refl) as (Hi & Ht & Hh & Hn).
    destruct Hok as (Hd & Hreg & Hids).
    unfold state_of. simpl. repeat split.
    + by rewrite Hi, Ht.
    + intros k id. rewrite Hi, Ht, Hh. apply Hreg.
    + intros id t. rewrite Hh, Hn. apply Hids.
  - assert (registry_ok (state_of (call f args kwargs w))) as Hc.
    { destruct f as [[] self]; simpl.
      - destruct (MCPBasedTool.bind_params args kwargs) as [e|ap]; [done|].
        rewrite bind_lift_inr. apply on_object_ok; [apply keeps_mcp_tool|done].
      - apply on_object_ok; [apply keeps_function_tool|done]. }
    unfold bind. destruct (call f args kwargs w) as [[[] w1] ev]; exact Hc.
  - apply on_object_ok; [|done].
    intros t r t' ev.
    destruct (BaseTool.mcp_clients t !! i) as [c|]; [|by intros [= <- <- <-]].
    destruct (MCPClient.health_step c) as [[r0 c'] ev0].
    intros [= <- <- <-]. by destruct t.
Qed.

Lemma run_ops_ok `{Runtime} (ops : list op) :
  registry_ok (run_ops ops init).
Proof.
  assert (forall w, registry_ok w -> registry_ok (run_ops ops w)) as Hgen.
  { induction ops as [|o rest IH]; intros w Hok; [done|].
    rewrite run_ops_step. pose proof (run_op_ok o w Hok) as Hstep.
    destruct (outcome_of (run_op o w)); auto. }
  apply Hgen. repeat split; simpl; try done.
Qed.

(** * Further properties, stated *)

(** ** Attaching and monitoring the handles *)

(** X4: [_attach_mcp_clients], on a configuration whose "mcp_clients" is a
    list of entries each of which is disabled or gives a name, a host and
    a port, returns normally; it appends to the handles of the tool one
    handle for each enabled entry, in the order of the list, connected,
    with protocol "stdio" and no token where the entry gives none, and
    skips the disabled entries without a trace. *)
Theorem attach_mcp_clients_enabled_only (t : BaseTool.t) (ds : list dict) :
  dict_get (BaseTool.config t) "mcp_clients" (VList []) = VList (map VDict ds) ->
  forallb entry_ok ds = true ->
  BaseTool._attach_mcp_clients t
  = (Ok tt,
     BaseTool.set_mcp_clients
       (BaseTool.mcp_clients t
          ++ map client_of (filter (fun d => enabled d = true) ds)) t,
     map connecting (filter (fun d => enabled d = true) ds)).
Proof. apply attach_enabled_run. Qed.

Lemma attach_mcp_clients_enabled_only_witness :
  BaseTool._attach_mcp_clients
    (Cases.fresh InternalFunctionToolC Cases.cfg_user_info)
  = (Ok tt,
     BaseTool.set_mcp_clients [client_of Cases.logger_entry]
       (Cases.fresh InternalFunctionToolC Cases.cfg_user_info),
     [connecting Cases.logger_entry]).
Proof.
  exact (attach_mcp_clients_enabled_only
           (Cases.fresh InternalFunctionToolC Cases.cfg_user_info)
           [Cases.logger_entry; Cases.disabled_entry] eq_refl eq_refl).
Defined.

(** X5: an enabled entry that lacks its name, host or port makes
    [_attach_mcp_clients] raise KeyError for the first key that is missing.
    The handles of the entries before it are attached and connected by
    then and stay on the tool; the entries after it are not looked at. *)
Theorem attach_mcp_clients_aborts (t : BaseTool.t) (ds1 ds2 : list dict)
    (d : dict) :
  dict_lookup "mcp_clients" (BaseTool.config t)
    = Some (VList (map VDict (ds1 ++ d :: ds2))) ->
  forallb entry_ok ds1 = true ->
  entry_ok d = false ->
  exists key,
    BaseTool._attach_mcp_clients t
    = (Raise (KeyError (VStr key)),
       BaseTool.set_mcp_clients
         (BaseTool.mcp_clients t
            ++ map client_of (filter (fun d => enabled d = true) ds1)) t,
       map connecting (filter (fun d => enabled d = true) ds1)).
Proof. apply attach_aborts_run. Qed.

Lemma attach_mcp_clients_aborts_witness :
  exists key,
    BaseTool._attach_mcp_clients (Cases.fresh MCPBasedToolC Cases.cfg_hostless)
    = (Raise (KeyError (VStr key)),
       BaseTool.set_mcp_clients [client_of Cases.logger_entry]
         (Cases.fresh MCPBasedToolC Cases.cfg_hostless),
       [connecting Cases.logger_entry]).
Proof.
  exact (attach_mcp_clients_aborts
           (Cases.fresh MCPBasedToolC Cases.cfg_hostless)
           [Cases.logger_entry] [Cases.logger_entry] Cases.hostless_entry
           eq_refl eq_refl eq_refl).
Defined.

(** X6: [_start_health_checks], on a configuration whose "health_check" is
    a dict or is absent, starts one health thread for every handle of the
    tool, each with the interval the dict gives, or 10 where there is no
    dict or no interval in it; it changes nothing else of the handles. *)
Theorem start_health_checks_every_client (t : BaseTool.t) :
  health_check_ok (BaseTool.config t) = true ->
  BaseTool._start_health_checks t
  = (Ok tt,
     BaseTool.set_mcp_clients
       (map (monitored (interval_of (BaseTool.config t))) (BaseTool.mcp_clients t)) t,
     map (fun c => SysThreadStart (MCPClient.name c)) (BaseTool.mcp_clients t)).
Proof. apply health_checks_run. Qed.

Lemma start_health_checks_every_client_witness :
  interval_of Lab.cfg_playwright = VInt 10
  /\ BaseTool._start_health_checks Lab.stopped_playwright
     = (Ok tt,
        BaseTool.set_mcp_clients
          (map (monitored (VInt 10)) (BaseTool.mcp_clients Lab.stopped_playwright))
          Lab.stopped_playwright,
        [SysThreadStart (VStr "user-logger")]).
Proof.
  split; [reflexivity|].
  exact (start_health_checks_every_client Lab.stopped_playwright eq_refl).
Defined.

(** ** Starting a tool *)

(** X7: [start] of a freshly constructed Function-Backed tool whose module
    and function resolve, on a well-formed configuration, returns normally
    with the callable stored, one handle for each enabled entry, connected
    and monitored at the configured interval; it connects all handles
    before it starts the first thread, and prints "Ready" last. *)
Theorem function_tool_start `{Runtime} (t : BaseTool.t) (ds : list dict)
    (m fn : pyval) (mod_ : nat) (f : callable) :
  BaseTool.mcp_clients t = [] ->
  dict_lookup "module" (BaseTool.config t) = Some m ->
  import_module m = inr mod_ ->
  dict_lookup "function" (BaseTool.config t) = Some fn ->
  getattr mod_ fn = inr f ->
  dict_get (BaseTool.config t) "mcp_clients" (VList []) = VList (map VDict ds) ->
  forallb entry_ok ds = true ->
  health_check_ok (BaseTool.config t) = true ->
  InternalFunctionTool.start t
  = (Ok tt,
     BaseTool.set_mcp_clients (started_clients (BaseTool.config t) ds)
       (BaseTool.set_function (Some f) t),
     started_events ds ++ [LogReady InternalFunctionToolC (BaseTool.name t)]).
Proof. apply function_start_run. Qed.

Lemma function_tool_start_witness :
  @InternalFunctionTool.start Lab.runtime
    (Cases.fresh InternalFunctionToolC Cases.cfg_user_info)
  = (Ok tt,
     BaseTool.set_mcp_clients
       [monitored (VInt 30) (client_of Cases.logger_entry)]
       (BaseTool.set_function (Some Lab.echo)
          (Cases.fresh InternalFunctionToolC Cases.cfg_user_info)),
     [connecting Cases.logger_entry; SysThreadStart (VStr "user-logger");
      LogReady InternalFunctionToolC (VStr "user_info")]).
Proof.
  exact (@function_tool_start Lab.runtime
           (Cases.fresh InternalFunctionToolC Cases.cfg_user_info)
           [Cases.logger_entry; Cases.disabled_entry]
           (VStr "enterprise_tools.user") (VStr "echo") 0%nat Lab.echo
           eq_refl eq_refl eq_refl eq_refl eq_refl eq_refl eq_refl eq_refl).
Defined.

(** X8: when the module cannot be imported, or has no attribute of the
    configured name, [start] of a Function-Backed tool raises that error
    before it has touched the tool: no handle is attached or connected, no
    thread started, nothing printed. *)
Theorem function_tool_start_unresolved `{Runtime} (t : BaseTool.t) (m : pyval)
    (e : exn) :
  dict_lookup "module" (BaseTool.config t) = Some m ->
  (import_module m = inl e
   \/ exists mod_ fn, import_module m = inr mod_
        /\ dict_lookup "function" (BaseTool.config t) = Some fn
        /\ getattr mod_ fn = inl e) ->
  InternalFunctionTool.start t = (Raise e, t, []).
Proof. apply function_start_unresolved_run. Qed.

Lemma function_tool_start_unresolved_witness :
  @InternalFunctionTool.start Lab.runtime
    (Cases.fresh InternalFunctionToolC Cases.cfg_unknown_module)
  = (Raise (OtherError 3),
     Cases.fresh InternalFunctionToolC Cases.cfg_unknown_module, []).
Proof.
  exact (@function_tool_start_unresolved Lab.runtime
           (Cases.fresh InternalFunctionToolC Cases.cfg_unknown_module)
           (VStr "no.such.module") (OtherError 3) eq_refl (or_introl eq_refl)).
Defined.

(** X9: [start] of a freshly constructed Process-Backed tool whose command
    can be launched, on a well-formed configuration, launches the command
    first, then attaches and connects one handle for each enabled entry,
    then starts their health threads, and returns normally owning the
    process. *)
Theorem mcp_tool_start `{Runtime} (t : BaseTool.t) (ds : list dict)
    (cmd : pyval) (line : string) (p : proc) :
  BaseTool.mcp_clients t = [] ->
  dict_get (BaseTool.config t) "command" (VList []) = cmd ->
  truthy cmd = true ->
  str_join " " cmd = inr line ->
  popen cmd = inr p ->
  dict_get (BaseTool.config t) "mcp_clients" (VList []) = VList (map VDict ds) ->
  forallb entry_ok ds = true ->
  health_check_ok (BaseTool.config t) = true ->
  MCPBasedTool.start t
  = (Ok tt,
     BaseTool.set_mcp_clients (started_clients (BaseTool.config t) ds)
       (BaseTool.set_process (Some p) t),
     [LogStartingProcess (BaseTool.name t) line; SysPopen cmd p]
     ++ started_events ds ++ [LogReady MCPBasedToolC (BaseTool.name t)]).
Proof. apply mcp_start_run. Qed.

Lemma mcp_tool_start_witness :
  @MCPBasedTool.start Lab.runtime (Cases.fresh MCPBasedToolC Lab.cfg_playwright)
  = (Ok tt,
     BaseTool.set_mcp_clients
       [monitored (VInt 10) (client_of Cases.logger_entry)]
       (BaseTool.set_process (Some 7%nat)
          (Cases.fresh MCPBasedToolC Lab.cfg_playwright)),
     [LogStartingProcess (VStr "playwright") "npx @playwright/mcp@latest";
      SysPopen (VList [VStr "npx"; VStr "@playwright/mcp@latest"]) 7%nat]
     ++ [connecting Cases.logger_entry; SysThreadStart (VStr "user-logger")]
     ++ [LogReady MCPBasedToolC (VStr "playwright")]).
Proof.
  exact (@mcp_tool_start Lab.runtime
           (Cases.fresh MCPBasedToolC Lab.cfg_playwright) [Cases.logger_entry]
           (VList [VStr "npx"; VStr "@playwright/mcp@latest"])
           "npx @playwright/mcp@latest" 7%nat
           eq_refl eq_refl eq_refl eq_refl eq_refl eq_refl eq_refl eq_refl).
Defined.

(** X10: a Process-Backed configuration whose command is empty (or any
    other falsy value) starts without launching anything: [start] returns
    normally, the handles attached and monitored, and the tool owns no
    process. *)
Theorem mcp_tool_start_without_command `{Runtime} (t : BaseTool.t)
    (ds : list dict) :
  BaseTool.mcp_clients t = [] ->
  truthy (dict_get (BaseTool.config t) "command" (VList [])) = false ->
  dict_get (BaseTool.config t) "mcp_clients" (VList []) = VList (map VDict ds) ->
  forallb entry_ok ds = true ->
  health_check_ok (BaseTool.config t) = true ->
  MCPBasedTool.start t
  = (Ok tt,
     BaseTool.set_mcp_clients (started_clients (BaseTool.config t) ds)
       (BaseTool.set_process None t),
     started_events ds ++ [LogReady MCPBasedToolC (BaseTool.name t)]).
Proof. apply mcp_start_without_command_run. Qed.

Lemma mcp_tool_start_without_command_witness :
  class_of Cases.cfg_no_command = Some MCPBasedToolC
  /\ @MCPBasedTool.start Lab.runtime (Cases.fresh MCPBasedToolC Cases.cfg_no_command)
     = (Ok tt,
        BaseTool.set_mcp_clients
          [monitored (VInt 10) (client_of Cases.logger_entry)]
          (BaseTool.set_process None
             (Cases.fresh MCPBasedToolC Cases.cfg_no_command)),
        [connecting Cases.logger_entry; SysThreadStart (VStr "user-logger")]
        ++ [LogReady MCPBasedToolC (VStr "bare")]).
Proof.
  split; [reflexivity|].
  exact (@mcp_tool_start_without_command Lab.runtime
           (Cases.fresh MCPBasedToolC Cases.cfg_no_command) [Cases.logger_entry]
           eq_refl eq_refl eq_refl eq_refl eq_refl).
Defined.

(** X11: when the command cannot be launched, [start] of a Process-Backed
    tool raises the error of the launch, having printed the command line
    and nothing more: no handle is attached, no thread started, and the
    tool owns no process. *)
Theorem mcp_tool_start_unlaunchable `{Runtime} (t : BaseTool.t)
    (cmd : pyval) (line : string) (e : exn) :
  dict_get (BaseTool.config t) "command" (VList []) = cmd ->
  truthy cmd = true ->
  str_join " " cmd = inr line ->
  popen cmd = inl e ->
  MCPBasedTool.start t
  = (Raise e, BaseTool.set_process None t,
     [LogStartingProcess (BaseTool.name t) line]).
Proof. apply mcp_start_unlaunchable_run. Qed.

Lemma mcp_tool_start_unlaunchable_witness :
  @MCPBasedTool.start Lab.runtime (Cases.fresh MCPBasedToolC Lab.cfg_unlaunchable)
  = (Raise (OtherError 2),
     BaseTool.set_process None (Cases.fresh MCPBasedToolC Lab.cfg_unlaunchable),
     [LogStartingProcess (VStr "playwright") "no-such-binary"]).
Proof.
  exact (@mcp_tool_start_unlaunchable Lab.runtime
           (Cases.fresh MCPBasedToolC Lab.cfg_unlaunchable)
           (VList [VStr "no-such-binary"]) "no-such-binary" (OtherError 2)
           eq_refl eq_refl eq_refl eq_refl).
Defined.

(** X12: [add_tool] on a Process-Backed configuration whose command can be
    launched and whose "mcp_clients" has an enabled entry without its name,
    host or port raises KeyError after the process was launched.  The
    instance that owns the process is entered in neither dict of the
    registry, so no later [remove_tool] reaches it: nothing terminates the
    process. *)
Theorem add_tool_leaves_launched_process `{Runtime} (cfg : dict) (w : World)
    (n cmd : pyval) (line : string) (p : proc)
    (ds1 ds2 : list dict) (d : dict) :
  dict_lookup "name" cfg = Some n ->
  dict_lookup "command" cfg = Some cmd ->
  truthy cmd = true ->
  str_join " " cmd = inr line ->
  popen cmd = inr p ->
  dict_lookup "mcp_clients" cfg = Some (VList (map VDict (ds1 ++ d :: ds2))) ->
  forallb entry_ok ds1 = true ->
  entry_ok d = false ->
  exists key t',
    add_tool cfg w
    = (Raise (KeyError (VStr key)), allocated t' w,
       [LogStartingProcess n line; SysPopen cmd p]
       ++ map connecting (filter (fun d => enabled d = true) ds1))
    /\ BaseTool.process t' = Some p
    /\ tool_instances (allocated t' w) = tool_instances w
    /\ tools (allocated t' w) = tools w.
Proof. apply add_tool_leak_run. Qed.

Lemma add_tool_leaves_launched_process_witness :
  exists key t',
    @add_tool Lab.runtime Cases.cfg_hostless init
    = (Raise (KeyError (VStr key)), allocated t' init,
       [LogStartingProcess (VStr "leaky") "npx server";
        SysPopen (VList [VStr "npx"; VStr "server"]) 7%nat]
       ++ [connecting Cases.logger_entry])
    /\ BaseTool.process t' = Some 7%nat
    /\ tool_instances (allocated t' init) = tool_instances init
    /\ tools (allocated t' init) = tools init.
Proof.
  exact (@add_tool_leaves_launched_process Lab.runtime Cases.cfg_hostless init
           (VStr "leaky") (VList [VStr "npx"; VStr "server"]) "npx server" 7%nat
           [Cases.logger_entry] [Cases.logger_entry] Cases.hostless_entry
           eq_refl eq_refl eq_refl eq_refl eq_refl eq_refl eq_refl eq_refl).
Defined.

(** ** The invocable of a Process-Backed tool *)

(** X13: the invocable of a Process-Backed tool, called with an action and
    a payload or with an action alone, always returns the acknowledgement
    "[name] action executed", leaves the world as it was, and hands to
    every handle of the tool, in order, the message with that action and
    the payload; a payload that is missing or falsy (None, 0, an empty
    string, list or dict) goes out as the empty dict. *)
Theorem mcp_tool_invoke `{Runtime} (w : World) (self : nat) (t : BaseTool.t)
    (action payload : pyval) :
  heap w !! self = Some t ->
  call (Closure MCPBasedToolC self) [action; payload] [] w
  = (Ok (MCPBasedTool.ack (BaseTool.name t) action), w,
     sent (VDict [("action", action);
                  ("payload", if truthy payload then payload else VDict [])])
          (BaseTool.mcp_clients t))
  /\ call (Closure MCPBasedToolC self) [action] [] w
     = (Ok (MCPBasedTool.ack (BaseTool.name t) action), w,
        sent (VDict [("action", action); ("payload", VDict [])])
             (BaseTool.mcp_clients t)).
Proof. apply mcp_invoke_run. Qed.

Lemma mcp_tool_invoke_witness :
  @call Lab.runtime (Closure MCPBasedToolC 0) [VStr "goto"; VInt 0] []
       (Lab.after_add Lab.cfg_playwright)
  = (Ok (@MCPBasedTool.ack Lab.runtime (VStr "playwright") (VStr "goto")),
     Lab.after_add Lab.cfg_playwright,
     sent (VDict [("action", VStr "goto"); ("payload", VDict [])])
          (BaseTool.mcp_clients (Cases.started MCPBasedToolC Lab.cfg_playwright)))
  /\ @call Lab.runtime (Closure MCPBasedToolC 0) [VStr "goto"] []
          (Lab.after_add Lab.cfg_playwright)
     = (Ok (@MCPBasedTool.ack Lab.runtime (VStr "playwright") (VStr "goto")),
        Lab.after_add Lab.cfg_playwright,
        sent (VDict [("action", VStr "goto"); ("payload", VDict [])])
             (BaseTool.mcp_clients (Cases.started MCPBasedToolC Lab.cfg_playwright))).
Proof.
  refine (@mcp_tool_invoke Lab.runtime (Lab.after_add Lab.cfg_playwright) 0%nat
            (Cases.started MCPBasedToolC Lab.cfg_playwright)
            (VStr "goto") (VInt 0) _).
  vm_compute. reflexivity.
Defined.

(** ** The registry *)

(** X14: whatever calls are made on a new registry (adding, removing,
    attaching to an agent, invoking a tool, steps of the health threads;
    calls that raise included), afterwards both dicts hold the same names,
    the instance under a name is a live object, the invocable under that
    name is the closure over that very object and of its class, and no
    object has an identity that is still to be given out. *)
Theorem registry_stays_in_good_order `{Runtime} (ops : list op) :
  registry_ok (run_ops ops init).
Proof. apply run_ops_ok. Qed.

(** X15: when [add_tool] returns, the configuration had a hashable name and
    a known kind, [start] of the new instance has returned, and what was
    printed is what [start] printed followed by the line "Added tool" with
    that name, which is the last line; both dicts have the instance and
    its invocable under that name, whatever they had there before, and no
    other entry, no agent and no other object has changed.  The instance
    is a new object wherever the identities of the objects lie below the
    next one, as they do in every world reached from a new registry. *)
Theorem add_tool_registers_that_name `{Runtime} (cfg : dict) (w w' : World)
    (ev : list event) :
  add_tool cfg w = (Ok tt, w', ev) ->
  exists n k c t' ev0,
    dict_lookup "name" cfg = Some n /\ to_key n = inr k /\ class_of cfg = Some c
    /\ start (BaseTool.init c n cfg) = (Ok tt, t', ev0)
    /\ ev = ev0 ++ [LogAdded n]
    /\ tool_instances w' = <[k := next_id w]> (tool_instances w)
    /\ tools w' = <[k := Closure c (next_id w)]> (tools w)
    /\ heap w' = <[next_id w := t']> (heap w)
    /\ next_id w' = S (next_id w)
    /\ agents w' = agents w
    /\ ((forall id t, heap w !! id = Some t -> (id < next_id w)%nat) ->
        heap w !! next_id w = None).
Proof.
  rewrite add_tool_run.
  destruct (dict_lookup "name" cfg) as [n|]; [|done].
  destruct (class_of cfg) as [c|]; [|done].
  destruct (start (BaseTool.init c n cfg)) as [[[[]|e|] t'] ev0] eqn:Est;
    try done.
  destruct (to_key n) as [e|k] eqn:Ek; [done|].
  intros [= <- <-]. exists n, k, c, t', ev0.
  repeat split; try done.
  intros Hids. destruct (heap w !! next_id w) as [t0|] eqn:E; [|done].
  apply Hids in E. lia.
Qed.

Lemma add_tool_registers_that_name_witness :
  exists n k c t' ev0,
    dict_lookup "name" Lab.cfg_echo = Some n /\ to_key n = inr k
    /\ class_of Lab.cfg_echo = Some c
    /\ @start Lab.runtime (BaseTool.init c n Lab.cfg_echo) = (Ok tt, t', ev0)
    /\ Cases.printed Lab.cfg_echo init = ev0 ++ [LogAdded n]
    /\ tool_instances (Lab.after_add Lab.cfg_echo)
       = <[k := next_id init]> (tool_instances init)
    /\ tools (Lab.after_add Lab.cfg_echo)
       = <[k := Closure c (next_id init)]> (tools init)
    /\ heap (Lab.after_add Lab.cfg_echo) = <[next_id init := t']> (heap init)
    /\ next_id (Lab.after_add Lab.cfg_echo) = S (next_id init)
    /\ agents (Lab.after_add Lab.cfg_echo) = agents init
    /\ ((forall id t, heap init !! id = Some t -> (id < next_id init)%nat) ->
        heap init !! next_id init = None).
Proof.
  refine (@add_tool_registers_that_name Lab.runtime Lab.cfg_echo init
            (Lab.after_add Lab.cfg_echo) (Cases.printed Lab.cfg_echo init) _).
  vm_compute. reflexivity.
Defined.



(** X17: when the process of a registered Process-Backed tool cannot be
    terminated, [remove_tool] raises that error and the tool stays in both
    dicts, although all its handles are disconnected by then: the registry
    keeps a tool that no longer works. *)
Theorem remove_tool_failed_stop_keeps_entry `{Runtime} (name : pyval)
    (k : pykey) (w : World) (id : nat) (t : BaseTool.t) (f : Invocable)
    (p : proc) (e : exn) :
  to_key name = inr k ->
  tool_instances w !! k = Some id ->
  tools w !! k = Some f ->
  heap w !! id = Some t ->
  BaseTool.cls t = MCPBasedToolC ->
  BaseTool.process t = Some p ->
  terminate p = inl e ->
  outcome_of (remove_tool name w) = Raise e
  /\ tool_instances (state_of (remove_tool name w)) = tool_instances w
  /\ tools (state_of (remove_tool name w)) = tools w
  /\ heap (state_of (remove_tool name w)) !! id
     = Some (BaseTool.set_mcp_clients
               (map (fun c => state_of (MCPClient.disconnect c))
                    (BaseTool.mcp_clients t)) t).
Proof. apply remove_failed_stop_run. Qed.

Lemma remove_tool_failed_stop_keeps_entry_witness :
  let w := Lab.after_add Lab.cfg_sudo in
  let t := Cases.started MCPBasedToolC Lab.cfg_sudo in
  let w' := state_of (@remove_tool Lab.runtime (VStr "root_server") w) in
  outcome_of (@remove_tool Lab.runtime (VStr "root_server") w)
  = Raise (OtherError 1)
  /\ tool_instances w' = tool_instances w
  /\ tools w' = tools w
  /\ heap w' !! 0%nat
     = Some (BaseTool.set_mcp_clients
               (map (fun c => state_of (@MCPClient.disconnect Lab.runtime c))
                    (BaseTool.mcp_clients t)) t).
Proof.
  refine (@remove_tool_failed_stop_keeps_entry Lab.runtime (VStr "root_server")
            (KStr "root_server") (Lab.after_add Lab.cfg_sudo) 0%nat
            (Cases.started MCPBasedToolC Lab.cfg_sudo)
            (Closure MCPBasedToolC 0) 13%nat (OtherError 1) _ _ _ _ _ _ _);
    vm_compute; reflexivity.
Defined.

(** X18: adding a tool under a name the registry does not have and then
    removing that name gives back the registry as it was: both dicts and
    the agents are the same as before the two calls.  Only the object that
    was created in between remains, unreachable from the registry. *)
Theorem add_then_remove_restores_registry `{Runtime} (cfg : dict) (n : pyval)
    (k : pykey) (w w1 w2 : World) (ev1 ev2 : list event) :
  dict_lookup "name" cfg = Some n ->
  to_key n = inr k ->
  tool_instances w !! k = None ->
  tools w !! k = None ->
  add_tool cfg w = (Ok tt, w1, ev1) ->
  remove_tool n w1 = (Ok tt, w2, ev2) ->
  tool_instances w2 = tool_instances w
  /\ tools w2 = tools w
  /\ agents w2 = agents w
  /\ next_id w2 = S (next_id w).
Proof. apply add_then_remove_run. Qed.

Lemma add_then_remove_restores_registry_witness :
  tool_instances Lab.after_remove = tool_instances init
  /\ tools Lab.after_remove = tools init
  /\ agents Lab.after_remove = agents init
  /\ next_id Lab.after_remove = S (next_id init).
Proof.
  refine (@add_then_remove_restores_registry Lab.runtime Lab.cfg_playwright
            (VStr "playwright") (KStr "playwright") init
            (Lab.after_add Lab.cfg_playwright) Lab.after_remove
            (Cases.printed Lab.cfg_playwright init)
            (events_of (@remove_tool Lab.runtime (VStr "playwright")
                          (Lab.after_add Lab.cfg_playwright)))
            _ _ _ _ _ _);
    vm_compute; reflexivity.
Defined.

(** X19: an invocable taken from the registry outlives the removal of its
    tool.  After [remove_tool] has stopped the tool and deleted its name, a
    call of the invocable of a Process-Backed tool still returns the
    acknowledgement "[name] action executed" and raises nothing. *)
Theorem removed_tool_still_answers `{Runtime} (name : pyval) (k : pykey)
    (w w' : World) (id : nat) (t : BaseTool.t) (ev : list event)
    (action payload : pyval) :
  to_key name = inr k ->
  tool_instances w !! k = Some id ->
  tools w !! k = Some (Closure MCPBasedToolC id) ->
  heap w !! id = Some t ->
  remove_tool name w = (Ok tt, w', ev) ->
  tools w' !! k = None
  /\ outcome_of (call (Closure MCPBasedToolC id) [action; payload] [] w')
     = Ok (MCPBasedTool.ack (BaseTool.name t) action)
  /\ state_of (call (Closure MCPBasedToolC id) [action; payload] [] w') = w'.
Proof. apply removed_tool_call_run. Qed.

Lemma removed_tool_still_answers_witness :
  tools Lab.after_remove !! KStr "playwright" = None
  /\ outcome_of (@call Lab.runtime (Closure MCPBasedToolC 0) [VStr "goto"; VNone] []
                      Lab.after_remove)
     = Ok (@MCPBasedTool.ack Lab.runtime (VStr "playwright") (VStr "goto"))
  /\ state_of (@call Lab.runtime (Closure MCPBasedToolC 0) [VStr "goto"; VNone] []
                    Lab.after_remove)
     = Lab.after_remove.
Proof.
  refine (@removed_tool_still_answers Lab.runtime (VStr "playwright")
            (KStr "playwright") (Lab.after_add Lab.cfg_playwright)
            Lab.after_remove 0%nat
            (Cases.started MCPBasedToolC Lab.cfg_playwright)
            (events_of (@remove_tool Lab.runtime (VStr "playwright")
                          (Lab.after_add Lab.cfg_playwright)))
            (VStr "goto") VNone _ _ _ _ _);
    vm_compute; reflexivity.
Defined.

(** X20: [setup] stops at the first entry of "tools" whose [add_tool]
    raises, and raises that error.  The tools of the entries before it stay
    registered and running, the failing entry leaves both dicts as they
    were, and the entries after it are never added. *)
Theorem setup_stops_at_first_failure `{Runtime} (ds1 ds2 : list dict)
    (d : dict) (w w1 w2 : World) (ev1 ev2 : list event) (e : exn) :
  for_each ds1 add_tool w = (Ok tt, w1, ev1) ->
  add_tool d w1 = (Raise e, w2, ev2) ->
  setup (VDict [("tools", VList (map VDict (ds1 ++ d :: ds2)))]) w
  = (Raise e, w2, ev1 ++ ev2)
  /\ tool_instances w2 = tool_instances w1
  /\ tools w2 = tools w1.
Proof. apply setup_failure_run. Qed.

Lemma setup_stops_at_first_failure_witness :
  let w1 := Lab.after_add Lab.cfg_echo in
  let w2 := Cases.after Lab.cfg_unlaunchable w1 in
  @setup Lab.runtime
    (VDict [("tools", VList (map VDict ([Lab.cfg_echo] ++ Lab.cfg_unlaunchable
                                          :: [Lab.cfg_playwright])))]) init
  = (Raise (OtherError 2), w2,
     Cases.printed Lab.cfg_echo init ++ Cases.printed Lab.cfg_unlaunchable w1)
  /\ tool_instances w2 = tool_instances w1
  /\ tools w2 = tools w1.
Proof.
  refine (@setup_stops_at_first_failure Lab.runtime [Lab.cfg_echo]
            [Lab.cfg_playwright] Lab.cfg_unlaunchable init
            (Lab.after_add Lab.cfg_echo)
            (Cases.after Lab.cfg_unlaunchable (Lab.after_add Lab.cfg_echo))
            (Cases.printed Lab.cfg_echo init)
            (Cases.printed Lab.cfg_unlaunchable (Lab.after_add Lab.cfg_echo))
            (OtherError 2) _ _);
    vm_compute; reflexivity.
Defined.

(** X21: a configuration that has no "command" and not both "module" and
    "function" is of no known kind: [add_tool] raises ValueError carrying
    its name, or KeyError "name" when it has no name either, before any
    object is created; the registry is exactly as before and nothing is
    printed. *)
Theorem add_tool_unknown_kind_changes_nothing `{Runtime} (cfg : dict)
    (w : World) :
  dict_has "command" cfg = false ->
  dict_has "module" cfg && dict_has "function" cfg = false ->
  add_tool cfg w
  = (Raise (match dict_lookup "name" cfg with
            | Some n => ValueError n
            | None => KeyError (VStr "name")
            end), w, []).
Proof.
  intros Hc Hmf. rewrite add_tool_run. unfold class_of. rewrite Hc, Hmf.
  by destruct (dict_lookup "name" cfg).
Qed.

Lemma add_tool_unknown_kind_changes_nothing_witness :
  @add_tool Lab.runtime Lab.cfg_neither (Lab.after_add Lab.cfg_echo)
  = (Raise (ValueError (VStr "neither")), Lab.after_add Lab.cfg_echo, []).
Proof.
  exact (@add_tool_unknown_kind_changes_nothing Lab.runtime Lab.cfg_neither
           (Lab.after_add Lab.cfg_echo) eq_refl eq_refl).
Defined.

(** X22: a name that cannot be a key of a dict (a list or a dict) is found
    out only when [add_tool] stores the instance, after [start] has
    returned: [add_tool] raises TypeError, and the started instance is an
    object of the heap that is in neither dict of the registry. *)
Theorem add_tool_unhashable_name_leaves_started_tool `{Runtime} (cfg : dict)
    (w : World) (n : pyval) (c : tool_class) (t' : BaseTool.t)
    (ev : list event) :
  dict_lookup "name" cfg = Some n ->
  to_key n = inl TypeError ->
  class_of cfg = Some c ->
  start (BaseTool.init c n cfg) = (Ok tt, t', ev) ->
  add_tool cfg w = (Raise TypeError, allocated t' w, ev)
  /\ heap (allocated t' w) !! next_id w = Some t'
  /\ tool_instances (allocated t' w) = tool_instances w
  /\ tools (allocated t' w) = tools w.
Proof.
  intros Hn Hk Hc Hs. rewrite add_tool_run, Hn, Hc, Hs, Hk.
  repeat split. simpl. apply lookup_insert_eq.
Qed.

Lemma add_tool_unhashable_name_leaves_started_tool_witness :
  let cfg := [("name", VList [VStr "a"]); ("command", VList [VStr "npx"])] in
  let t' := state_of (@start Lab.runtime
                        (BaseTool.init MCPBasedToolC (VList [VStr "a"]) cfg)) in
  BaseTool.process t' = Some 7%nat
  /\ @add_tool Lab.runtime cfg init
     = (Raise TypeError, allocated t' init,
        events_of (@start Lab.runtime
                     (BaseTool.init MCPBasedToolC (VList [VStr "a"]) cfg)))
  /\ heap (allocated t' init) !! next_id init = Some t'
  /\ tool_instances (allocated t' init) = tool_instances init
  /\ tools (allocated t' init) = tools init.
Proof.
  split; [reflexivity|].
  refine (@add_tool_unhashable_name_leaves_started_tool Lab.runtime
            [("name", VList [VStr "a"]); ("command", VList [VStr "npx"])] init
            (VList [VStr "a"]) MCPBasedToolC _ _ _ _ _ _);
    vm_compute; reflexivity.
Defined.

(** X23: the invocable of a Process-Backed tool takes an action and at most
    a payload.  Called with no action at all, or with more than two
    positional arguments, it raises TypeError before its body runs: nothing
    is sent to any handle and the world is as before. *)
Theorem mcp_tool_invoke_bad_arguments `{Runtime} (w : World) (self : nat)
    (args : list pyval) (kwargs : dict) :
  (args = [] /\ dict_lookup "action" kwargs = None) \/ (2 < length args)%nat ->
  call (Closure MCPBasedToolC self) args kwargs w = (Raise TypeError, w, []).
Proof.
  intros Hbad. unfold call.
  assert (MCPBasedTool.bind_params args kwargs = inl TypeError) as ->.
  { unfold MCPBasedTool.bind_params.
    destruct (negb (forallb _ kwargs)); [done|].
    destruct Hbad as [[-> ->]|Hlen]; [done|].
    destruct args as [|a [|p [|q rest]]]; simpl in Hlen; try lia.
    by destruct (dict_lookup "action" kwargs), (dict_lookup "payload" kwargs). }
  reflexivity.
Qed.

Lemma mcp_tool_invoke_bad_arguments_witness :
  @call Lab.runtime (Closure MCPBasedToolC 0) [] [("payload", VInt 1)]
        (Lab.after_add Lab.cfg_playwright)
  = (Raise TypeError, Lab.after_add Lab.cfg_playwright, []).
Proof.
  exact (@mcp_tool_invoke_bad_arguments Lab.runtime
           (Lab.after_add Lab.cfg_playwright) 0%nat [] [("payload", VInt 1)]
           (or_introl (conj eq_refl eq_refl))).
Defined.

(** ** A health check that cannot sleep *)

(** X24: where [time.sleep] raises for the interval the health check was
    started with (a negative number, a value that is not a number), the
    thread ends within one turn of its loop, at its first sleep at the
    latest, whether the stop flag is set or not.  From then on it never
    looks at the handle: a handle that loses its connection afterwards is
    not reconnected. *)
Theorem health_loop_ends_where_sleep_raises `{Runtime} (c : MCPClient.t)
    (interval : pyval) (e : exn) (k : nat) :
  sleep interval = inl e ->
  let c3 := state_of (MCPClient.health_steps 3
              (state_of (MCPClient.start_health_check interval c))) in
  MCPClient.thread_done c3 = true
  /\ MCPClient.health_steps k (MCPClient.set_connected false c3)
     = (Ok tt, MCPClient.set_connected false c3, []).
Proof.
  intros Hs c3.
  assert (MCPClient.thread_done c3 = true) as Hd.
  { subst c3. destruct c as [n h p tk pr cn thr sh].
    destruct sh, cn; cbv -[sleep]; rewrite ?Hs; reflexivity. }
  split; [exact Hd|].
  apply HealthFacts.health_steps_done. by destruct c3.
Qed.

Lemma health_loop_ends_where_sleep_raises_witness :
  let c3 := state_of (@MCPClient.health_steps Lab.runtime 3
              (state_of (MCPClient.start_health_check (VInt (-1))
                           Lab.idle_client))) in
  MCPClient.connected c3 = true
  /\ MCPClient.thread_done c3 = true
  /\ @MCPClient.health_steps Lab.runtime 7 (MCPClient.set_connected false c3)
     = (Ok tt, MCPClient.set_connected false c3, []).
Proof.
  intros c3. split; [reflexivity|].
  exact (@health_loop_ends_where_sleep_raises Lab.runtime Lab.idle_client
           (VInt (-1)) (ValueError (VInt (-1))) 7%nat eq_refl).
Defined.
